(** * The dashboard page of the learning app

    A shallow embedding of [src/app/dashboard/page.tsx]: the statistics the
    page derives from the stored progress record (accuracy, pass
    probability, streak message, per-category percentages), the quick-action
    list, the split of the category list, and the two loaders that read
    browser storage.

    JavaScript numbers are IEEE-754 binary64 values.  They are modelled with
    the reference implementation of the standard library ([SpecFloat], at
    precision 53 and maximal exponent 1024), so that [a / b * 100] rounds
    twice exactly where the page's arithmetic does. *)

From Stdlib Require Import ZArith Lia Reals Lra SpecFloat.
From stdpp Require Import base list strings gmap pretty.

(** ** JavaScript numbers *)

Module Num.
Local Open Scope Z_scope.

Definition prec : Z := 53.
Definition emax : Z := 1024.

Definition number : Type := spec_float.

(** An integer literal, or an integer read from JSON: the nearest
    binary64 value (exact below [2^53]). *)
Definition of_Z (z : Z) : number := binary_normalize prec emax z 0 false.

Definition NaN : number := S754_nan.

(** [a / b] and [a * b]. *)
Definition div (a b : number) : number := SFdiv prec emax a b.
Definition mul (a b : number) : number := SFmul prec emax a b.

(** [a === b], [a < b], [a > b], [a >= b] on numbers: every comparison
    with [NaN] is false, and the two zeros are equal. *)
Definition eqb (a b : number) : bool := SFeqb a b.
Definition ltb (a b : number) : bool := SFltb a b.
Definition gtb (a b : number) : bool := SFltb b a.
Definition geb (a b : number) : bool := SFleb b a.

Definition signed (s : bool) (m : positive) : Z :=
  if s then Z.neg m else Z.pos m.

(** [Math.round]: non-finite and integral values are returned as they
    are; otherwise the closest integer, a tie going towards plus infinity;
    a result of zero keeps the sign of the argument. *)
Definition Math_round (x : number) : number :=
  match x with
  | S754_finite s m e =>
      if 0 <=? e then x
      else
        let n := (2 * signed s m + 2 ^ (- e)) / 2 ^ (1 - e) in
        if n =? 0 then S754_zero s else of_Z n
  | _ => x
  end.

(** The integer a number denotes, when it is finite and integral. *)
Definition to_int (x : number) : option Z :=
  match x with
  | S754_zero _ => Some 0
  | S754_finite s m e =>
      if 0 <=? e then Some (signed s m * 2 ^ e)
      else if Z.pos m mod 2 ^ (- e) =? 0 then Some (signed s m / 2 ^ (- e))
      else None
  | _ => None
  end.

(** Divisions performed while a value is derived: the value together
    with the divisors it was computed with, in evaluation order. *)
Definition Traced (A : Type) : Type := A * list number.

Definition tret {A} (a : A) : Traced A := (a, []).
Definition tbind {A B} (c : Traced A) (k : A -> Traced B) : Traced B :=
  let '(a, l1) := c in let '(b, l2) := k a in (b, l1 ++ l2).
Definition tdiv (a b : number) : Traced number := (div a b, [b]).

(** The shape [Math.round((a / b) * 100)] that the page writes out at
    each of its percentage derivations. *)
Definition roundedPercent (a b : number) : Traced number :=
  tbind (tdiv a b) (fun q => tret (Math_round (mul q (of_Z 100)))).

Definition is_zero (x : number) : bool :=
  match x with S754_zero _ => true | _ => false end.

(** *** Reading the rounding code

    The rounding of [SpecFloat] works on a mantissa with two sticky bits.
    [rec_of n d] is the record it holds for the exact quotient [n / d]: the
    integer part, and where the remainder lies in the interval to the next
    integer. *)
Definition loc_of (rho d : Z) : location :=
  if rho =? 0 then loc_Exact else loc_Inexact (2 * rho ?= d).

Definition rec_of (n d : Z) : shr_record :=
  shr_record_of_loc (n / d) (loc_of (n mod d) d).

(** The mantissa and exponent of a positive integer below [2^53]. *)
Definition int_mantissa (n : Z) : positive := Z.to_pos (n * 2 ^ (53 - Zdigits2 n)).
Definition int_exponent (n : Z) : Z := Zdigits2 n - 53.

(** The real value of a finite number. *)
Definition bpow (e : Z) : R := powerRZ 2 e.

Definition B2R (x : number) : R :=
  match x with
  | S754_finite s m e => (IZR (signed s m) * bpow e)%R
  | _ => 0%R
  end.

(** The unit in the last place of 1. *)
Definition ulp1 : R := bpow (-52).

(** A positive number whose mantissa has the full 53 bits. *)
Definition normal_pos (x : number) (m : positive) (e : Z) : Prop :=
  x = S754_finite false m e /\ Zdigits2 (Z.pos m) = 53.

(** [Math.round] of the exact ratio [100 * c / t], for comparison with
    what the binary64 computation returns. *)
Definition exact_rounded_percent (c t : Z) : Z := (200 * c + t) / (2 * t).

(** No division recorded in a trace has a zero divisor. *)
Definition no_division_by_zero {A} (c : Traced A) : Prop :=
  Forall (fun d => is_zero d = false) (snd c).
End Num.

Abbreviation number := Num.number.

(** ** Data *)

(** A value of type [any]: what [JSON.parse] can return. *)
#[warnings="-register-all"] Inductive json : Type :=
  | JNull
  | JBool (b : bool)
  | JNum (x : number)
  | JStr (s : string)
  | JArr (l : list json)
  | JObj (fields : list (string * json)).

(** A thrown value. *)
Inductive exn : Type :=
  | TypeError (msg : string)
  | Thrown (v : json).

Inductive result (A : Type) : Type :=
  | Ok (a : A)
  | Throw (e : exn).
Arguments Ok {A} a.
Arguments Throw {A} e.

(** An element of the [categories] table of [utils/category-utils]. *)
Module Category.
Record t : Type := mk {
  name : string;
  nameJa : option string;
  totalQuestions : number
}.
End Category.

(** The record kept per category in [categoryProgress]. *)
Module CategoryData.
Record t : Type := mk {
  totalQuestions : number;
  answeredQuestions : number;
  correctAnswers : number
}.
End CategoryData.

Record Preferences : Type := {
  showJapaneseInStudy : bool;
  showJapaneseInMock : bool;
  autoReviewIncorrect : bool;
  notificationEnabled : bool
}.

(** [UserProgress] of [types]; the two question lists may be missing in
    stored data, which is why the page reads them with [?.]. *)
Record UserProgress : Type := {
  totalQuestionsAnswered : number;
  correctAnswers : number;
  categoryProgress : gmap string CategoryData.t;
  studySessions : list json;
  incorrectQuestions : option (list json);
  overcomeQuestions : option (list json);
  currentStreak : number;
  lastStudyDate : string;
  preferences : Preferences
}.

Record User : Type := { nickname : string }.

Record StreakStatus : Type := { message : string; color : string }.

Record QuickAction : Type := {
  title : string;
  description : string;
  icon : string;
  href : string;
  action_color : string;
  disabled : option bool
}.

(** ** Array and string built-ins *)

(** [arr.slice(start)]: a negative [start] counts from the end. *)
Definition Array_slice {A} (start : Z) (arr : list A) : list A :=
  let len := Z.of_nat (length arr) in
  let k := if (start <? 0)%Z then Z.max (len + start) 0 else Z.min start len in
  drop (Z.to_nat k) arr.

(** [s.includes(needle)]: [needle] occurs at some position of [s].  Strings
    are byte strings here; an ASCII needle such as "Mock" occurs in the
    UTF-8 bytes of a text exactly where it occurs in its UTF-16 units. *)
Fixpoint String_includes (needle s : string) : bool :=
  String.prefix needle s ||
  match s with
  | EmptyString => false
  | String _ s' => String_includes needle s'
  end.

(** ** Derived statistics *)

Section Statistics.
Import Num.

(** [Number::toString] on values that are not integers below [10^21]
    picks the shortest digit string that reads back as the same number;
    that algorithm is left as a parameter. *)
Variable shortest_repr : number -> string.

Definition Number_toString (x : number) : string :=
  match x with
  | S754_nan => "NaN"
  | S754_infinity s => if s then "-Infinity" else "Infinity"
  | S754_zero _ => "0"
  | S754_finite _ _ _ =>
      match to_int x with
      | Some n => if (Z.abs n <? 10 ^ 21)%Z then pretty n else shortest_repr x
      | None => shortest_repr x
      end
  end.

(** The component's [progress] state: [None] is [null]. *)
Variable progress : option UserProgress.

Definition calculateAccuracyT : Traced number :=
  match progress with
  | None => tret (of_Z 0)
  | Some p =>
      if eqb (totalQuestionsAnswered p) (of_Z 0) then tret (of_Z 0)
      else roundedPercent (correctAnswers p) (totalQuestionsAnswered p)
  end.

Definition calculateAccuracy : number := fst calculateAccuracyT.

Definition calculatePassProbability : string :=
  let accuracy := calculateAccuracy in
  if geb accuracy (of_Z 70) then "高"
  else if geb accuracy (of_Z 60) then "中"
  else "低".

Definition getStreakStatus : StreakStatus :=
  match progress with
  | None => {| message := "学習を始めましょう！"; color := "text-gray-500" |}
  | Some p =>
      let streak := currentStreak p in
      if eqb streak (of_Z 0) then
        {| message := "今日から始めましょう！"; color := "text-gray-500" |}
      else if ltb streak (of_Z 3) then
        {| message := Number_toString streak +:+ "日連続！";
           color := "text-orange-500" |}
      else if ltb streak (of_Z 7) then
        {| message := Number_toString streak +:+ "日連続！素晴らしい！";
           color := "text-blue-500" |}
      else
        {| message := Number_toString streak +:+ "日連続！すごい！";
           color := "text-green-500" |}
  end.

(** [progress?.incorrectQuestions?.length || 0]. *)
Definition getIncorrectQuestionsCount : nat :=
  default 0 (length <$> (progress ≫= incorrectQuestions)).

Definition getOvercomeQuestionsCount : nat :=
  default 0 (length <$> (progress ≫= overcomeQuestions)).

Definition quickActions : list QuickAction :=
  [ {| title := "カテゴリ別学習";
       description := "各カテゴリから10問出題";
       icon := "Target";
       href := "/study?mode=category";
       action_color := "bg-indigo-500";
       disabled := None |};
    {| title := "Mock試験";
       description := "本番形式で実力チェック";
       icon := "Clock";
       href := "/study?mode=mock";
       action_color := "bg-emerald-500";
       disabled := None |};
    {| title := "間違えた問題を復習";
       description := pretty getIncorrectQuestionsCount +:+ "問の復習が可能";
       icon := "AlertCircle";
       href := "/study/session?mode=review";
       action_color := "bg-orange-500";
       disabled := Some (Nat.eqb getIncorrectQuestionsCount 0) |};
    {| title := "問題リスト";
       description := "カテゴリ別の問題一覧";
       icon := "List";
       href := "/questions";
       action_color := "bg-purple-500";
       disabled := None |} ].
End Statistics.

(** [action.disabled ? "#" : action.href]: a missing [disabled] is falsy. *)
Definition linkHref (action : QuickAction) : string :=
  if default false (disabled action) then "#" else href action.

(** The class list of a quick-action link ends with the disabled marker. *)
Definition linkClass (action : QuickAction) : string :=
  if default false (disabled action) then "opacity-50 cursor-not-allowed" else "".

(** ** Category progress *)

Section Categories.
Import Num.

(** The [categories] table of [utils/category-utils]. *)
Variable categories : list Category.t.

Definition isMock (c : Category.t) : bool :=
  String_includes "Mock" (Category.name c).

Definition studyCategories : list Category.t :=
  filter (fun c => negb (isMock c) = true) categories.

Definition mockCategories : list Category.t :=
  filter (fun c => isMock c = true) categories.

(** [percentage] and [accuracy] of one entry, as the study list computes
    them. *)
Definition studyStatsT (data : CategoryData.t) : Traced (number * number) :=
  tbind
    (if gtb (CategoryData.totalQuestions data) (of_Z 0)
     then roundedPercent (CategoryData.answeredQuestions data)
                         (CategoryData.totalQuestions data)
     else tret (of_Z 0))
    (fun percentage =>
       tbind
         (if gtb (CategoryData.answeredQuestions data) (of_Z 0)
          then roundedPercent (CategoryData.correctAnswers data)
                              (CategoryData.answeredQuestions data)
          else tret (of_Z 0))
         (fun accuracy => tret (percentage, accuracy))).

(** The same two derivations, as the mock list writes them out again. *)
Definition mockStatsT (data : CategoryData.t) : Traced (number * number) :=
  tbind
    (if gtb (CategoryData.totalQuestions data) (of_Z 0)
     then roundedPercent (CategoryData.answeredQuestions data)
                         (CategoryData.totalQuestions data)
     else tret (of_Z 0))
    (fun percentage =>
       tbind
         (if gtb (CategoryData.answeredQuestions data) (of_Z 0)
          then roundedPercent (CategoryData.correctAnswers data)
                              (CategoryData.answeredQuestions data)
          else tret (of_Z 0))
         (fun accuracy => tret (percentage, accuracy))).

Record StudyRow : Type := {
  study_name : string;
  study_nameJa : option string;
  study_answered : number;
  study_total : number;
  study_accuracy : number;
  study_width : number
}.

Record MockCard : Type := {
  mock_name : string;
  mock_percentage : number;
  mock_accuracy : number;
  mock_accuracy_class : string
}.

(** One row of the study list; reading a field of a missing entry throws. *)
Definition renderStudyCategory (p : UserProgress) (category : Category.t)
  : result StudyRow :=
  match categoryProgress p !! Category.name category with
  | None => Throw (TypeError "Cannot read properties of undefined")
  | Some data =>
      let '(percentage, accuracy) := fst (studyStatsT data) in
      Ok {| study_name := Category.name category;
            study_nameJa := Category.nameJa category;
            study_answered := CategoryData.answeredQuestions data;
            study_total := CategoryData.totalQuestions data;
            study_accuracy := accuracy;
            study_width := percentage |}
  end.

Definition renderMockCategory (p : UserProgress) (category : Category.t)
  : result MockCard :=
  match categoryProgress p !! Category.name category with
  | None => Throw (TypeError "Cannot read properties of undefined")
  | Some data =>
      let '(percentage, accuracy) := fst (mockStatsT data) in
      Ok {| mock_name := Category.name category;
            mock_percentage := percentage;
            mock_accuracy := accuracy;
            mock_accuracy_class :=
              if geb accuracy (of_Z 70) then "text-green-500"
              else "text-orange-500" |}
  end.

(** ** Fresh progress *)

(** The entry the [forEach] loop assigns for one category. *)
Definition freshEntry (category : Category.t) : CategoryData.t :=
  CategoryData.mk (Category.totalQuestions category) (of_Z 0) (of_Z 0).

(** The loop itself: one assignment per category, in table order, a later
    assignment to the same name replacing the earlier one. *)
Definition assignAll (acc : gmap string CategoryData.t) (cats : list Category.t)
  : gmap string CategoryData.t :=
  foldl (fun acc category => <[Category.name category := freshEntry category]> acc)
        acc cats.

Definition initialCategoryProgress : gmap string CategoryData.t :=
  assignAll ∅ categories.

Definition initialProgress : UserProgress := {|
  totalQuestionsAnswered := of_Z 0;
  correctAnswers := of_Z 0;
  categoryProgress := initialCategoryProgress;
  studySessions := [];
  incorrectQuestions := Some [];
  overcomeQuestions := Some [];
  currentStreak := of_Z 0;
  lastStudyDate := "";
  preferences := {| showJapaneseInStudy := true;
                    showJapaneseInMock := false;
                    autoReviewIncorrect := true;
                    notificationEnabled := false |}
|}.

(** ** Component state and the loaders *)

(** What the page imports and this file does not contain: the storage
    wrapper of [utils/storage-utils] (typed reads, [None] for [null]), the
    validator of [utils/progress-validator] and the error hook.  Each call
    may throw. *)
Record Env (Store ErrState : Type) : Type := {
  getItem_progress : string -> Store -> result (option UserProgress);
  getItem_history : string -> Store -> result (option (list json));
  setItem : string -> UserProgress -> Store -> result Store;
  validateAndFixProgress : UserProgress -> result UserProgress;
  handleError : exn -> string -> ErrState -> ErrState
}.

Record State (Store ErrState : Type) : Type := {
  progress : option UserProgress;
  loading : bool;
  show3D : bool;
  mockExamHistory : list json;
  errorState : ErrState;
  storage : Store;
  console : list (string * exn)
}.
End Categories.

Arguments getItem_progress {Store ErrState} _ _ _.
Arguments getItem_history {Store ErrState} _ _ _.
Arguments setItem {Store ErrState} _ _ _ _.
Arguments validateAndFixProgress {Store ErrState} _ _.
Arguments handleError {Store ErrState} _ _ _ _.
Arguments progress {Store ErrState} _.
Arguments loading {Store ErrState} _.
Arguments show3D {Store ErrState} _.
Arguments mockExamHistory {Store ErrState} _.
Arguments errorState {Store ErrState} _.
Arguments storage {Store ErrState} _.
Arguments console {Store ErrState} _.

Section Loaders.
Context {Store ErrState : Type}.
Variable env : Env Store ErrState.
Variable categories : list Category.t.
Variable user : option User.

Abbreviation St := (State Store ErrState).

(** A computation of the component: it may update the state and may throw;
    the state reached at a throw is kept. *)
Definition M (A : Type) : Type := St -> St * result A.

Definition ret {A} (a : A) : M A := fun s => (s, Ok a).

Definition bind {A B} (c : M A) (k : A -> M B) : M B :=
  fun s =>
    match c s with
    | (s', Ok a) => k a s'
    | (s', Throw e) => (s', Throw e)
    end.

Notation "x <- c ;; k" := (bind c (fun x => k))
  (at level 100, c at next level, right associativity).
Notation "c ;;; k" := (bind c (fun _ => k))
  (at level 100, right associativity).

Definition lift {A} (f : Store -> result A) : M A :=
  fun s => (s, f (storage s)).

Definition try_catch {A} (body : M A) (handler : exn -> M A) : M A :=
  fun s =>
    match body s with
    | (s', Ok a) => (s', Ok a)
    | (s', Throw e) => handler e s'
    end.

(** [try { body } finally { fin }]: [fin] runs on both exits, and the
    outcome of [body] is kept unless [fin] throws itself. *)
Definition finally {A} (body : M A) (fin : M unit) : M A :=
  fun s =>
    match body s with
    | (s', r) =>
        match fin s' with
        | (s'', Ok _) => (s'', r)
        | (s'', Throw e) => (s'', Throw e)
        end
    end.

Definition setLoading (b : bool) : M unit :=
  fun s => ({| progress := progress s; loading := b; show3D := show3D s;
               mockExamHistory := mockExamHistory s;
               errorState := errorState s; storage := storage s;
               console := console s |}, Ok tt).

Definition setProgress (p : UserProgress) : M unit :=
  fun s => ({| progress := Some p; loading := loading s; show3D := show3D s;
               mockExamHistory := mockExamHistory s;
               errorState := errorState s; storage := storage s;
               console := console s |}, Ok tt).

Definition setMockExamHistory (h : list json) : M unit :=
  fun s => ({| progress := progress s; loading := loading s; show3D := show3D s;
               mockExamHistory := h;
               errorState := errorState s; storage := storage s;
               console := console s |}, Ok tt).

(** [safeLocalStorage.setItem(key, value)]. *)
Definition storeItem (key : string) (value : UserProgress) : M unit :=
  fun s =>
    match setItem env key value (storage s) with
    | Ok st => ({| progress := progress s; loading := loading s;
                   show3D := show3D s; mockExamHistory := mockExamHistory s;
                   errorState := errorState s; storage := st;
                   console := console s |}, Ok tt)
    | Throw e => (s, Throw e)
    end.

Definition reportError (e : exn) (msg : string) : M unit :=
  fun s => ({| progress := progress s; loading := loading s; show3D := show3D s;
               mockExamHistory := mockExamHistory s;
               errorState := handleError env e msg (errorState s);
               storage := storage s; console := console s |}, Ok tt).

Definition console_error (msg : string) (e : exn) : M unit :=
  fun s => ({| progress := progress s; loading := loading s; show3D := show3D s;
               mockExamHistory := mockExamHistory s;
               errorState := errorState s; storage := storage s;
               console := console s ++ [(msg, e)] |}, Ok tt).

Definition liftResult {A} (r : result A) : M A := fun s => (s, r).

(** [user?.nickname] inside a template string. *)
Definition nicknameText : string :=
  match user with
  | Some u => nickname u
  | None => "undefined"
  end.

Definition userProgressKey : string := "userProgress_" +:+ nicknameText.
Definition historyKey : string := "mockExamHistory_" +:+ nicknameText.

Definition loadUserProgress_body : M unit :=
  setLoading true ;;;
  parsedProgress <- lift (getItem_progress env userProgressKey) ;;
  match parsedProgress with
  | Some parsed =>
      validatedProgress <- liftResult (validateAndFixProgress env parsed) ;;
      setProgress validatedProgress
  | None =>
      setProgress (initialProgress categories) ;;;
      storeItem userProgressKey (initialProgress categories)
  end.

Definition loadUserProgress_catch (error : exn) : M unit :=
  reportError error "学習進捗の読み込みに失敗しました".

Definition loadUserProgress : M unit :=
  finally (try_catch loadUserProgress_body loadUserProgress_catch)
          (setLoading false).

Definition loadMockExamHistory : M unit :=
  try_catch
    (stored <- lift (getItem_history env historyKey) ;;
     let history := default [] stored in
     setMockExamHistory (reverse (Array_slice (-5) history)))
    (fun error => console_error "Failed to load mock exam history:" error).
End Loaders.

(** ** A storage that never throws

    Browser storage as two finite maps from keys to parsed values; reads
    of a missing key give [null], writes insert.  The validator is kept as
    a parameter; reported errors are appended to a log. *)

Record MapStore : Type := {
  progress_items : gmap string UserProgress;
  history_items : gmap string (list json)
}.

Definition mapEnv (validate : UserProgress -> result UserProgress)
  : Env MapStore (list (exn * string)) := {|
  getItem_progress := fun key st => Ok (progress_items st !! key);
  getItem_history := fun key st => Ok (history_items st !! key);
  setItem := fun key value st =>
    Ok {| progress_items := <[key := value]> (progress_items st);
          history_items := history_items st |};
  validateAndFixProgress := validate;
  handleError := fun e msg errs => errs ++ [(e, msg)]
|}.

Definition emptyState (st : MapStore) : State MapStore (list (exn * string)) := {|
  progress := None; loading := true; show3D := false; mockExamHistory := [];
  errorState := []; storage := st; console := []
|}.

(** Sample data used to exercise the statements below. *)

Definition sampleHistory : list json :=
  [JStr "e1"; JStr "e2"; JStr "e3"; JStr "e4"; JStr "e5"; JStr "e6"; JStr "e7"].

Definition sampleStore : MapStore := {|
  progress_items := ∅;
  history_items := {[ "mockExamHistory_taro" := sampleHistory ]}
|}.

Definition sampleCategories : list Category.t :=
  [ Category.mk "The Regulatory Environment" (Some "規制環境") (Num.of_Z 42);
    Category.mk "Regulatory Mock 1" None (Num.of_Z 75);
    Category.mk "Complaints and Redress" None (Num.of_Z 0) ].

Definition sampleProgress (correct total streak : Z) : UserProgress := {|
  totalQuestionsAnswered := Num.of_Z total;
  correctAnswers := Num.of_Z correct;
  categoryProgress := ∅;
  studySessions := [];
  incorrectQuestions := None;
  overcomeQuestions := None;
  currentStreak := Num.of_Z streak;
  lastStudyDate := "";
  preferences := {| showJapaneseInStudy := true;
                    showJapaneseInMock := false;
                    autoReviewIncorrect := true;
                    notificationEnabled := false |}
|}.

Definition storeWith (key : string) (p : UserProgress) : MapStore := {|
  progress_items := {[ key := p ]};
  history_items := ∅
|}.

(** A validator that rejects every stored value. *)
Definition rejectAll (p : UserProgress) : result UserProgress :=
  Throw (Thrown (JStr "invalid progress")).

(** ** The rest of the component

    The mount effect, the retry button of the error alert, the early
    returns of the render body and the two category lists.  The cleanup of
    [utils/progress-validator] and [clearError] of the error hook are
    imported by the page and are parameters here. *)

(** [arr.map(f)] with a callback that may throw: the first throw ends the
    traversal. *)
Fixpoint Array_map_result {A B} (f : A -> result B) (arr : list A)
  : result (list B) :=
  match arr with
  | [] => Ok []
  | x :: rest =>
      match f x with
      | Throw e => Throw e
      | Ok y =>
          match Array_map_result f rest with
          | Throw e => Throw e
          | Ok ys => Ok (y :: ys)
          end
      end
  end.

(** The rows of the study list and the cards of the mock list. *)
Definition studySection (categories : list Category.t) (p : UserProgress)
  : result (list StudyRow) :=
  Array_map_result (renderStudyCategory p) (studyCategories categories).

Definition mockSection (categories : list Category.t) (p : UserProgress)
  : result (list MockCard) :=
  Array_map_result (renderMockCategory p) (mockCategories categories).

(** Which of its three returns the render body takes.  The error alert,
    with its retry button, is part of the last one only. *)
Inductive Screen : Type :=
  | LoadingSpinner
  | FallbackSpinner
  | DashboardScreen (p : UserProgress).

Definition screenCaption (sc : Screen) : option string :=
  match sc with
  | LoadingSpinner => Some "学習データを読み込んでいます..."
  | FallbackSpinner => Some "Loading..."
  | DashboardScreen _ => None
  end.

Section Component.
Context {Store ErrState : Type}.
Variable env : Env Store ErrState.
Variable cleanupAllProgressData : Store -> result Store.
Variable clearError : ErrState -> ErrState.
Variable categories : list Category.t.
Variable user : option User.

Definition screen (s : State Store ErrState) : Screen :=
  if loading s then LoadingSpinner
  else match progress s with
       | None => FallbackSpinner
       | Some p => DashboardScreen p
       end.





End Component.

(** * Properties *)

(** ** The number model on known values

    [23 / 40] and [23 / 40 * 100] as binary64 computes them
    ([0.575] and [57.49999999999999]), and [Math.round] at and next to
    ties. *)

Example div_23_40 :
  Num.div (Num.of_Z 23) (Num.of_Z 40) = S754_finite false 5179139571476070 (-53).
Proof. reflexivity. Qed.

Example mul_23_40_100 :
  Num.mul (Num.div (Num.of_Z 23) (Num.of_Z 40)) (Num.of_Z 100)
  = S754_finite false 8092405580431359 (-47).
Proof. reflexivity. Qed.

Example Math_round_half :
  Num.Math_round (Num.div (Num.of_Z 1) (Num.of_Z 2)) = Num.of_Z 1.
Proof. reflexivity. Qed.

Example Math_round_below_half :
  Num.Math_round (S754_finite false 9007199254740991 (-54)) = Num.of_Z 0.
Proof. reflexivity. Qed.

Example Math_round_minus_half :
  Num.Math_round (Num.div (Num.of_Z (-1)) (Num.of_Z 2)) = S754_zero true.
Proof. reflexivity. Qed.

Example Math_round_minus_5_halves :
  Num.Math_round (Num.div (Num.of_Z (-5)) (Num.of_Z 2)) = Num.of_Z (-2).
Proof. reflexivity. Qed.

Example Math_round_5_halves :
  Num.Math_round (Num.div (Num.of_Z 5) (Num.of_Z 2)) = Num.of_Z 3.
Proof. reflexivity. Qed.

Example division_by_zero_is_infinite :
  Num.div (Num.of_Z 3) (Num.of_Z 0) = S754_infinity false /\
  Num.div (Num.of_Z 0) (Num.of_Z 0) = Num.NaN.
Proof. split; reflexivity. Qed.

(** ** Numbers: integers, comparisons and the error of one rounding *)

Module NumFacts.
Import Num.
Local Open Scope Z_scope.

Lemma digits2_pos_size p : digits2_pos p = Pos.size p.
Proof. induction p; simpl; congruence. Qed.

Lemma Zdigits2_bounds m :
  0 < m -> 2 ^ (Zdigits2 m - 1) <= m < 2 ^ Zdigits2 m.
Proof.
  destruct m as [|p|p]; try lia. intros _. simpl.
  rewrite digits2_pos_size.
  pose proof (Pos.size_gt p) as Hgt. pose proof (Pos.size_le p) as Hle.
  assert (H2 : forall q, Z.pos (2 ^ q) = 2 ^ Z.pos q) by (intros; by rewrite Pos2Z.inj_pow).
  split.
  - assert (2 ^ Z.pos (Pos.size p) <= 2 * Z.pos p) by (rewrite <- H2; lia).
    replace (Z.pos (Pos.size p)) with (Z.pos (Pos.size p) - 1 + 1) in H by lia.
    rewrite Z.pow_add_r in H by lia. lia.
  - rewrite <- H2. lia.
Qed.

Lemma Zdigits2_unique m d :
  2 ^ (d - 1) <= m < 2 ^ d -> 0 < d -> Zdigits2 m = d.
Proof.
  intros [Hlo Hhi] Hd.
  assert (Hm : 0 < m) by (pose proof (Z.pow_pos_nonneg 2 (d - 1)); lia).
  pose proof (Zdigits2_bounds m Hm) as [Hlo' Hhi'].
  assert (Hdm : 0 < Zdigits2 m) by (destruct m; simpl; lia).
  destruct (Z.lt_trichotomy (Zdigits2 m) d) as [Hlt|[Heq|Hgt]]; [|done|].
  - assert (2 ^ Zdigits2 m <= 2 ^ (d - 1)) by (apply Z.pow_le_mono_r; lia). lia.
  - assert (2 ^ d <= 2 ^ (Zdigits2 m - 1)) by (apply Z.pow_le_mono_r; lia). lia.
Qed.

Lemma shr_1_nonneg m r s :
  0 <= m ->
  shr_1 {| shr_m := m; shr_r := r; shr_s := s |}
  = {| shr_m := m / 2; shr_r := Z.odd m; shr_s := r || s |}.
Proof.
  intros Hm. destruct m as [|[p|p|]|]; try lia; simpl; try reflexivity.
  - f_equal. rewrite Pos2Z.inj_xI. apply (Z.div_unique _ _ _ 1); lia.
  - f_equal. rewrite Pos2Z.inj_xO. apply (Z.div_unique _ _ _ 0); lia.
Qed.

Lemma shr_1_of_loc m l :
  0 <= m ->
  shr_1 (shr_record_of_loc m l)
  = {| shr_m := m / 2; shr_r := Z.odd m;
       shr_s := match l with loc_Exact => false | _ => true end |}.
Proof.
  intros Hm. destruct l as [|[]]; unfold shr_record_of_loc;
    rewrite shr_1_nonneg by done; reflexivity.
Qed.

Lemma shr_1_rec_of n d : 0 <= n -> 0 < d -> shr_1 (rec_of n d) = rec_of n (2 * d).
Proof.
  intros Hn Hd. unfold rec_of.
  pose proof (Z.mod_pos_bound n d Hd) as Hrho.
  assert (Hm : 0 <= n / d) by (apply Z.div_pos; lia).
  assert (Hdiv : n / (2 * d) = n / d / 2).
  { rewrite (Z.mul_comm 2 d). rewrite Z.div_div; lia. }
  assert (Hmod : n mod (2 * d) = n mod d + d * ((n / d) mod 2)).
  { rewrite (Z.mul_comm 2 d). apply Z.rem_mul_r; lia. }
  rewrite Hdiv, Hmod, shr_1_of_loc by done.
  pose proof (Z.mod_pos_bound (n / d) 2 ltac:(lia)) as Hb.
  rewrite (Zmod_odd (n / d)).
  set (m := n / d) in *. set (rho := n mod d) in *.
  unfold loc_of.
  destruct (Z.odd m), (Z.eqb_spec rho 0) as [Hz|Hnz].
  - replace (rho + d * 1 =? 0) with false by (symmetry; apply Z.eqb_neq; lia).
    replace (2 * (rho + d * 1) ?= 2 * d) with Eq by (symmetry; apply Z.compare_eq_iff; lia).
    reflexivity.
  - replace (rho + d * 1 =? 0) with false by (symmetry; apply Z.eqb_neq; lia).
    replace (2 * (rho + d * 1) ?= 2 * d) with Gt by (symmetry; apply Z.compare_gt_iff; lia).
    reflexivity.
  - replace (rho + d * 0 =? 0) with true by (symmetry; apply Z.eqb_eq; lia).
    reflexivity.
  - replace (rho + d * 0 =? 0) with false by (symmetry; apply Z.eqb_neq; lia).
    replace (2 * (rho + d * 0) ?= 2 * d) with Lt by (symmetry; apply Z.compare_lt_iff; lia).
    reflexivity.
Qed.

Lemma pow2_double p : 2 ^ Z.pos p~0 = 2 ^ Z.pos p * 2 ^ Z.pos p.
Proof. rewrite <- Z.pow_add_r by lia. f_equal. lia. Qed.

Lemma iter_pos_shr_1 p n d :
  0 <= n -> 0 < d ->
  SpecFloat.iter_pos shr_1 p (rec_of n d) = rec_of n (d * 2 ^ Z.pos p).
Proof.
  intros Hn. revert d. induction p as [p IH|p IH|]; intros d Hd; simpl.
  - pose proof (Z.pow_pos_nonneg 2 (Z.pos p) ltac:(lia) ltac:(lia)) as Hp.
    rewrite shr_1_rec_of by done. rewrite IH by lia. rewrite IH by nia.
    f_equal. rewrite Pos2Z.inj_xI, Z.pow_add_r by lia.
    change (2 * Z.pos p) with (Z.pos p~0). rewrite pow2_double. ring.
  - pose proof (Z.pow_pos_nonneg 2 (Z.pos p) ltac:(lia) ltac:(lia)) as Hp.
    rewrite IH by lia. rewrite IH by nia.
    f_equal. rewrite pow2_double. ring.
  - rewrite shr_1_rec_of by done. f_equal. change (2 ^ 1) with 2. ring.
Qed.

Lemma shr_rec_of n d e k :
  0 <= n -> 0 < d ->
  shr (rec_of n d) e k = (rec_of n (d * 2 ^ Z.max 0 k), e + Z.max 0 k).
Proof.
  intros Hn Hd. destruct k as [|p|p]; simpl.
  - rewrite Z.mul_1_r, Z.add_0_r. reflexivity.
  - rewrite iter_pos_shr_1 by done. reflexivity.
  - rewrite Z.mul_1_r, Z.add_0_r. reflexivity.
Qed.

Lemma loc_of_shr_record_of_loc m l :
  loc_of_shr_record (shr_record_of_loc m l) = l /\
  shr_m (shr_record_of_loc m l) = m.
Proof. by destruct l as [|[]]. Qed.

Lemma shr_m_rec_of n d : shr_m (rec_of n d) = n / d.
Proof. apply loc_of_shr_record_of_loc. Qed.

Lemma loc_rec_of n d : loc_of_shr_record (rec_of n d) = loc_of (n mod d) d.
Proof. apply loc_of_shr_record_of_loc. Qed.

Lemma rec_of_exact m : shr_record_of_loc m loc_Exact = rec_of m 1.
Proof.
  unfold rec_of. rewrite Z.div_1_r, Z.mod_1_r. reflexivity.
Qed.

Lemma round_nearest_even_bounds m l :
  m <= round_nearest_even m l <= m + 1 /\
  (l = loc_Exact -> round_nearest_even m l = m).
Proof.
  destruct l as [|[]]; simpl; try destruct (Z.even m); split; (lia || done).
Qed.

Lemma fexp_normal e : -1074 <= e - 53 -> fexp prec emax e = e - 53.
Proof. unfold fexp, SpecFloat.emin, prec, emax. lia. Qed.

(** Rounding a positive quotient [n / d * 2^e] that lies in the normal
    range: the result is finite, its mantissa has 53 bits, and it is one
    of the two neighbours of the quotient on the grid of step [2^(e+k)]. *)
Lemma binary_round_aux_normal (s : bool) (n d e : Z) :
  0 <= n -> 0 < d ->
  53 <= Zdigits2 (n / d) ->
  -1074 <= Zdigits2 (n / d) + e - 53 ->
  Zdigits2 (n / d) + e < 1024 ->
  let k := Zdigits2 (n / d) - 53 in
  let mk := n / (d * 2 ^ k) in
  exists (M : Z) (mr : positive) (er : Z),
    binary_round_aux prec emax s (n / d) e (loc_of (n mod d) d)
      = S754_finite s mr er /\
    mk <= M <= mk + 1 /\
    (n mod (d * 2 ^ k) = 0 -> M = mk) /\
    2 ^ 52 <= mk < 2 ^ 53 /\
    Z.pos mr * 2 ^ (er - (e + k)) = M /\
    e + k <= er <= e + k + 1 /\
    Zdigits2 (Z.pos mr) = 53 /\
    -1074 <= er <= 971.
Proof.
  intros Hn Hd Hdm Hlo Hhi k mk.
  assert (Hm0 : 0 <= n / d) by (apply Z.div_pos; lia).
  set (m := n / d) in *.
  assert (Hm : 0 < m) by (destruct m; simpl in Hdm; lia).
  assert (Hk : 0 <= k) by (unfold k; lia).
  pose proof (Z.pow_pos_nonneg 2 k ltac:(lia) Hk) as H2k.
  pose proof (Zdigits2_bounds m Hm) as [Hmlo Hmhi].
  assert (Hmk : mk = m / 2 ^ k).
  { unfold mk, m. rewrite Z.div_div; lia. }
  assert (Hmkb : 2 ^ 52 <= mk < 2 ^ 53).
  { rewrite Hmk. split.
    - apply Z.div_le_lower_bound; [lia|].
      rewrite <- Z.pow_add_r by lia. replace (k + 52) with (Zdigits2 m - 1) by (unfold k; lia).
      done.
    - apply Z.div_lt_upper_bound; [lia|].
      rewrite <- Z.pow_add_r by lia. replace (k + 53) with (Zdigits2 m) by (unfold k; lia).
      done. }
  unfold binary_round_aux, shr_fexp.
  change (shr_record_of_loc m (loc_of (n mod d) d)) with (rec_of n d).
  rewrite fexp_normal by lia.
  replace (Zdigits2 m + e - 53 - e) with k by (unfold k; lia).
  rewrite shr_rec_of by done. rewrite Z.max_r by done.
  cbv beta iota zeta. rewrite !shr_m_rec_of, !loc_rec_of. fold mk.
  pose proof (round_nearest_even_bounds mk (loc_of (n mod (d * 2 ^ k)) (d * 2 ^ k)))
    as [Hr Hex].
  set (m1 := round_nearest_even mk _) in *.
  rewrite rec_of_exact.
  destruct (Z.eq_dec m1 (2 ^ 53)) as [Hcarry|Hnc].
  - assert (Hd1 : Zdigits2 m1 = 54).
    { apply Zdigits2_unique; [|lia]. rewrite Hcarry. change (54 - 1) with 53.
      split; [lia|]. apply Z.pow_lt_mono_r; lia. }
    rewrite Hd1, fexp_normal by lia.
    replace (54 + (e + k) - 53 - (e + k)) with 1 by lia.
    rewrite shr_rec_of by lia. rewrite Z.max_r by lia.
    cbv beta iota zeta.
    rewrite shr_m_rec_of.
    rewrite Hcarry. change (2 ^ 53 / (1 * 2 ^ 1)) with (Z.pos (2 ^ 52)).
    replace (e + k + 1 <=? emax - prec) with true
      by (symmetry; apply Z.leb_le; unfold emax, prec, k; lia).
    exists m1, (2 ^ 52)%positive, (e + k + 1).
    split; [reflexivity|]. split; [lia|]. split.
    { intros Hz. apply Hex. unfold loc_of. by rewrite Hz. }
    split; [done|]. split.
    { replace (e + k + 1 - (e + k)) with 1 by lia. by rewrite Hcarry. }
    split; [lia|]. split; [reflexivity|]. unfold k. lia.
  - assert (Hd1 : Zdigits2 m1 = 53).
    { apply Zdigits2_unique; [|lia]. change (53 - 1) with 52. lia. }
    rewrite Hd1, fexp_normal by (unfold k; lia).
    replace (53 + (e + k) - 53 - (e + k)) with 0 by lia.
    rewrite shr_rec_of by lia. rewrite Z.max_r by lia.
    cbv beta iota zeta.
    rewrite shr_m_rec_of.
    change (1 * 2 ^ 0) with 1. rewrite Z.div_1_r.
    destruct m1 as [|mr|mr] eqn:Hm1; try lia.
    replace (e + k + 0 <=? emax - prec) with true
      by (symmetry; apply Z.leb_le; unfold emax, prec, k; lia).
    exists (Z.pos mr), mr, (e + k).
    split; [by rewrite Z.add_0_r|]. split; [lia|]. split.
    { intros Hz. apply Hex. unfold loc_of. by rewrite Hz. }
    split; [done|]. split.
    { rewrite Z.sub_diag. simpl. lia. }
    split; [lia|]. split; [done|]. unfold k. lia.
Qed.

(** ** Integers as numbers *)

Lemma iter_xO_pow p k : Z.pos (Pos.iter xO p k) = Z.pos p * 2 ^ Z.pos k.
Proof.
  induction k as [|k IH] using Pos.peano_ind.
  - simpl. lia.
  - rewrite Pos.iter_succ, Pos2Z.inj_xO, IH, Pos2Z.inj_succ, Z.pow_succ_r by lia. ring.
Qed.

Lemma shl_align_spec p e e' :
  e' <= e ->
  Z.pos (fst (shl_align p e e')) = Z.pos p * 2 ^ (e - e') /\
  snd (shl_align p e e') = e'.
Proof.
  intros He. unfold shl_align.
  destruct (e' - e) as [|q|q] eqn:Hq; simpl; try lia.
  - assert (e = e') as -> by lia. rewrite Z.sub_diag. simpl. lia.
  - rewrite iter_xO_pow. replace (e - e') with (Z.pos q) by lia. done.
Qed.

Lemma Zdigits2_pos_le n : 0 < n < 2 ^ 53 -> 1 <= Zdigits2 n <= 53.
Proof.
  intros [Hn Hlt]. pose proof (Zdigits2_bounds n Hn) as [Hlo Hhi].
  split; [destruct n; simpl; lia|].
  destruct (Z.le_gt_cases (Zdigits2 n) 53) as [|Hgt]; [done|].
  assert (2 ^ 53 <= 2 ^ (Zdigits2 n - 1)) by (apply Z.pow_le_mono_r; lia). lia.
Qed.

Lemma int_mantissa_spec n :
  0 < n < 2 ^ 53 ->
  Z.pos (int_mantissa n) = n * 2 ^ (53 - Zdigits2 n) /\
  Zdigits2 (Z.pos (int_mantissa n)) = 53.
Proof.
  intros Hn. pose proof (Zdigits2_pos_le n Hn) as Hd.
  pose proof (Zdigits2_bounds n ltac:(lia)) as [Hlo Hhi].
  pose proof (Z.pow_pos_nonneg 2 (53 - Zdigits2 n) ltac:(lia) ltac:(lia)) as Hp.
  assert (Hm : Z.pos (int_mantissa n) = n * 2 ^ (53 - Zdigits2 n)).
  { unfold int_mantissa. rewrite Z2Pos.id; [done | nia]. }
  split; [done|]. rewrite Hm. apply Zdigits2_unique; [|lia]. split.
  - replace (53 - 1) with ((Zdigits2 n - 1) + (53 - Zdigits2 n)) by lia.
    rewrite Z.pow_add_r by lia. nia.
  - replace 53 with (Zdigits2 n + (53 - Zdigits2 n)) at 2 by lia.
    rewrite Z.pow_add_r by lia. nia.
Qed.

Lemma binary_round_int s p :
  Z.pos p < 2 ^ 53 ->
  binary_round prec emax s p 0
  = S754_finite s (int_mantissa (Z.pos p)) (int_exponent (Z.pos p)).
Proof.
  intros Hp. pose proof (Zdigits2_pos_le (Z.pos p) ltac:(lia)) as Hd.
  pose proof (int_mantissa_spec (Z.pos p) ltac:(lia)) as [Hm Hdm].
  unfold binary_round.
  change (Z.pos (digits2_pos p)) with (Zdigits2 (Z.pos p)) in *.
  rewrite Z.add_0_r, fexp_normal by lia.
  destruct (shl_align_spec p 0 (Zdigits2 (Z.pos p) - 53) ltac:(lia)) as [Hz He].
  destruct (shl_align p 0 (Zdigits2 (Z.pos p) - 53)) as [mz ez].
  cbn [fst snd] in Hz, He. subst ez.
  assert (Hmz : Z.pos mz = Z.pos (int_mantissa (Z.pos p))).
  { rewrite Hz, Hm. do 2 f_equal. lia. }
  injection Hmz as ->.
  set (m := int_mantissa (Z.pos p)) in *. set (e := Zdigits2 (Z.pos p) - 53) in *.
  pose proof (binary_round_aux_normal s (Z.pos m) 1 e ltac:(lia) ltac:(lia)) as H.
  cbv zeta in H. rewrite !Z.div_1_r, !Z.mod_1_r, Hdm in H.
  change (53 - 53) with 0 in H. change (1 * 2 ^ 0) with 1 in H.
  rewrite Z.div_1_r, Z.mod_1_r, Z.add_0_r in H. change (loc_of 0 1) with loc_Exact in H.
  destruct H as (M & mr & er & Heq & HM & Hex & Hmk & Hval & Her & Hdr & _);
    [lia | unfold e; lia | unfold e; lia |].
  rewrite Heq. specialize (Hex eq_refl). subst M.
  pose proof (Zdigits2_bounds (Z.pos mr) ltac:(lia)) as [Hlo Hhi]. rewrite Hdr in *.
  change (53 - 1) with 52 in *.
  assert (er = e) as ->.
  { destruct (Z.eq_dec er e) as [|Hne]; [done|]. assert (er = e + 1) as -> by lia.
    replace (e + 1 - e) with 1 in Hval by lia. change (2 ^ 1) with 2 in Hval. lia. }
  rewrite Z.sub_diag in Hval. change (2 ^ 0) with 1 in Hval.
  unfold int_exponent. fold e. f_equal. lia.
Qed.

Lemma of_Z_pos n :
  0 < n < 2 ^ 53 ->
  of_Z n = S754_finite false (int_mantissa n) (int_exponent n).
Proof.
  intros Hn. destruct n as [|p|p]; try lia. unfold of_Z. simpl binary_normalize.
  apply binary_round_int. lia.
Qed.

Lemma of_Z_neg n :
  0 < n < 2 ^ 53 ->
  of_Z (- n) = S754_finite true (int_mantissa n) (int_exponent n).
Proof.
  intros Hn. destruct n as [|p|p]; try lia. unfold of_Z. simpl binary_normalize.
  apply binary_round_int. lia.
Qed.

(** ** Comparing integers as numbers *)

Lemma int_compare a b :
  0 < a < 2 ^ 53 -> 0 < b < 2 ^ 53 ->
  match int_exponent a ?= int_exponent b with
  | Lt => Lt
  | Gt => Gt
  | Eq => Pos.compare_cont Eq (int_mantissa a) (int_mantissa b)
  end = (a ?= b).
Proof.
  intros Ha Hb. unfold int_exponent.
  pose proof (Zdigits2_pos_le a Ha) as Hda. pose proof (Zdigits2_pos_le b Hb) as Hdb.
  pose proof (Zdigits2_bounds a ltac:(lia)) as [Halo Hahi].
  pose proof (Zdigits2_bounds b ltac:(lia)) as [Hblo Hbhi].
  destruct (Z.compare_spec (Zdigits2 a - 53) (Zdigits2 b - 53)) as [Heq|Hlt|Hgt].
  - change (Pos.compare_cont Eq (int_mantissa a) (int_mantissa b))
      with (Z.pos (int_mantissa a) ?= Z.pos (int_mantissa b)).
    destruct (int_mantissa_spec a Ha) as [-> _].
    destruct (int_mantissa_spec b Hb) as [-> _].
    replace (Zdigits2 b) with (Zdigits2 a) by lia.
    symmetry. apply Zmult_compare_compat_r.
    apply Z.lt_gt, Z.pow_pos_nonneg; lia.
  - symmetry. apply Z.compare_lt_iff.
    assert (2 ^ Zdigits2 a <= 2 ^ (Zdigits2 b - 1)) by (apply Z.pow_le_mono_r; lia). lia.
  - symmetry. apply Z.compare_gt_iff.
    assert (2 ^ Zdigits2 b <= 2 ^ (Zdigits2 a - 1)) by (apply Z.pow_le_mono_r; lia). lia.
Qed.

Lemma of_Z_cases n :
  - 2 ^ 53 < n < 2 ^ 53 ->
  (n = 0 /\ of_Z n = S754_zero false) \/
  (0 < n /\ of_Z n = S754_finite false (int_mantissa n) (int_exponent n)) \/
  (n < 0 /\ of_Z n = S754_finite true (int_mantissa (- n)) (int_exponent (- n))).
Proof.
  intros Hn. destruct (Z.lt_trichotomy n 0) as [H|[->|H]].
  - right; right. split; [done|]. rewrite <- of_Z_neg by lia. f_equal. lia.
  - by left.
  - right; left. split; [done|]. apply of_Z_pos. lia.
Qed.

Lemma SFcompare_of_Z a b :
  - 2 ^ 53 < a < 2 ^ 53 -> - 2 ^ 53 < b < 2 ^ 53 ->
  SFcompare (of_Z a) (of_Z b) = Some (a ?= b).
Proof.
  intros Ha Hb.
  destruct (of_Z_cases a Ha) as [[Hsa ->]|[[Hsa ->]|[Hsa ->]]];
    destruct (of_Z_cases b Hb) as [[Hsb ->]|[[Hsb ->]|[Hsb ->]]];
    cbn [SFcompare]; f_equal; symmetry.
  - subst. reflexivity.
  - apply Z.compare_lt_iff. lia.
  - apply Z.compare_gt_iff. lia.
  - apply Z.compare_gt_iff. lia.
  - symmetry. apply int_compare; lia.
  - apply Z.compare_gt_iff. lia.
  - apply Z.compare_lt_iff. lia.
  - apply Z.compare_lt_iff. lia.
  - rewrite <- (Z.opp_involutive a), <- (Z.opp_involutive b) at 1.
    rewrite Z.compare_opp, <- (int_compare (- b) (- a)) by lia.
    rewrite (Z.compare_antisym (int_exponent (- a)) (int_exponent (- b))).
    rewrite (Pos.compare_cont_antisym (int_mantissa (- a)) (int_mantissa (- b)) Eq).
    simpl. by destruct (int_exponent (- a) ?= int_exponent (- b)).
Qed.

Lemma eqb_of_Z a b :
  - 2 ^ 53 < a < 2 ^ 53 -> - 2 ^ 53 < b < 2 ^ 53 ->
  eqb (of_Z a) (of_Z b) = (a =? b).
Proof.
  intros Ha Hb. unfold eqb, SFeqb. rewrite SFcompare_of_Z by done.
  destruct (Z.compare_spec a b) as [->|H|H]; symmetry;
    [apply Z.eqb_refl | apply Z.eqb_neq; lia | apply Z.eqb_neq; lia].
Qed.

Lemma ltb_of_Z a b :
  - 2 ^ 53 < a < 2 ^ 53 -> - 2 ^ 53 < b < 2 ^ 53 ->
  ltb (of_Z a) (of_Z b) = (a <? b).
Proof.
  intros Ha Hb. unfold ltb, SFltb. rewrite SFcompare_of_Z by done.
  unfold Z.ltb. by destruct (a ?= b).
Qed.

Lemma geb_of_Z a b :
  - 2 ^ 53 < a < 2 ^ 53 -> - 2 ^ 53 < b < 2 ^ 53 ->
  geb (of_Z a) (of_Z b) = (b <=? a).
Proof.
  intros Ha Hb. unfold geb, SFleb. rewrite SFcompare_of_Z by done.
  unfold Z.leb. by destruct (b ?= a).
Qed.

Lemma gtb_of_Z a b :
  - 2 ^ 53 < a < 2 ^ 53 -> - 2 ^ 53 < b < 2 ^ 53 ->
  gtb (of_Z a) (of_Z b) = (b <? a).
Proof.
  intros Ha Hb. unfold gtb, SFltb. rewrite SFcompare_of_Z by done.
  unfold Z.ltb. by destruct (b ?= a).
Qed.

Lemma to_int_of_Z n : - 2 ^ 53 < n < 2 ^ 53 -> to_int (of_Z n) = Some n.
Proof.
  intros Hn.
  assert (Hpos : forall s k, 0 < k < 2 ^ 53 ->
            to_int (S754_finite s (int_mantissa k) (int_exponent k))
            = Some (if s then - k else k)).
  { intros s k Hk. pose proof (Zdigits2_pos_le k Hk) as Hd.
    destruct (int_mantissa_spec k Hk) as [Hm _].
    pose proof (Z.pow_pos_nonneg 2 (53 - Zdigits2 k) ltac:(lia) ltac:(lia)) as Hp.
    unfold to_int, int_exponent.
    assert (Hs : signed s (int_mantissa k)
                 = (if s then - k else k) * 2 ^ (53 - Zdigits2 k)).
    { unfold signed. destruct s; [|done].
      rewrite <- Pos2Z.opp_pos, Hm. ring. }
    destruct (Z.leb_spec 0 (Zdigits2 k - 53)) as [He|He].
    - assert (Zdigits2 k = 53) as Hd53 by lia. rewrite Hs, Hd53. simpl. f_equal. lia.
    - replace (- (Zdigits2 k - 53)) with (53 - Zdigits2 k) by lia.
      rewrite Hm, Z.mod_mul by lia. simpl. rewrite Hs, Z.div_mul by lia. done. }
  destruct (of_Z_cases n Hn) as [[-> ->]|[[Hs ->]|[Hs ->]]].
  - reflexivity.
  - by rewrite Hpos by lia.
  - rewrite Hpos by lia. f_equal. lia.
Qed.

(** ** Real values *)

Lemma bpow_pos e : (0 < bpow e)%R.
Proof. apply powerRZ_lt. lra. Qed.

Lemma bpow_add a b : bpow (a + b) = (bpow a * bpow b)%R.
Proof. apply powerRZ_add. lra. Qed.

Lemma bpow_IZR e : 0 <= e -> bpow e = IZR (2 ^ e).
Proof.
  intros He. destruct e as [|p|p]; try lia.
  - reflexivity.
  - unfold bpow. symmetry. apply (Zpower_pos_powerRZ 2 p).
Qed.

Lemma IZR_div_bounds n d :
  0 < d -> (IZR (n / d) <= IZR n / IZR d < IZR (n / d) + 1)%R.
Proof.
  intros Hd. pose proof (Z.mod_pos_bound n d Hd) as Hr.
  pose proof (Z.div_mod n d ltac:(lia)) as Hnd.
  assert (HD : (0 < IZR d)%R) by (apply IZR_lt; lia).
  assert (Hn : IZR n = (IZR d * IZR (n / d) + IZR (n mod d))%R).
  { rewrite <- mult_IZR, <- plus_IZR. by f_equal. }
  assert (H0 : (0 <= IZR (n mod d))%R) by (apply IZR_le; lia).
  assert (H1 : (IZR (n mod d) < IZR d)%R) by (apply IZR_lt; lia).
  assert (Hi : (0 < / IZR d)%R) by (by apply Rinv_0_lt_compat).
  assert (Hdi : (IZR d * / IZR d = 1)%R) by (apply Rinv_r; lra).
  assert (Hq : (IZR n / IZR d = IZR (n / d) + IZR (n mod d) * / IZR d)%R).
  { rewrite Hn. field. lra. }
  rewrite Hq. split; nra.
Qed.

(** The relative error of one rounding in the normal range is at most one
    unit in the last place. *)
Lemma binary_round_aux_error (s : bool) (n d e : Z) :
  0 <= n -> 0 < d ->
  53 <= Zdigits2 (n / d) ->
  -1074 <= Zdigits2 (n / d) + e - 53 ->
  Zdigits2 (n / d) + e < 1024 ->
  exists (mr : positive) (er : Z),
    binary_round_aux prec emax s (n / d) e (loc_of (n mod d) d)
      = S754_finite s mr er /\
    Zdigits2 (Z.pos mr) = 53 /\
    Zdigits2 (n / d) + e - 53 <= er <= Zdigits2 (n / d) + e - 52 /\
    let v := (IZR n / IZR d * bpow e)%R in
    (0 < v /\ v * (1 - ulp1) <= IZR (Z.pos mr) * bpow er <= v * (1 + ulp1))%R.
Proof.
  intros Hn Hd Hdm Hlo Hhi.
  destruct (binary_round_aux_normal s n d e Hn Hd Hdm Hlo Hhi)
    as (M & mr & er & Heq & HM & _ & Hmk & Hval & Her & Hdr & _).
  set (k := Zdigits2 (n / d) - 53) in *.
  set (mk := n / (d * 2 ^ k)) in *.
  exists mr, er. split; [done|]. split; [done|]. split; [unfold k in Her; lia|].
  intros v.
  assert (Hk : 0 <= k) by (unfold k; lia).
  pose proof (Z.pow_pos_nonneg 2 k ltac:(lia) Hk) as H2k.
  set (g := bpow (e + k)).
  assert (Hg : (0 < g)%R) by apply bpow_pos.
  assert (HD : (0 < IZR d)%R) by (apply IZR_lt; lia).
  assert (H2kR : (0 < IZR (2 ^ k))%R) by (apply IZR_lt; lia).
  assert (Hres : (IZR (Z.pos mr) * bpow er = IZR M * g)%R).
  { rewrite <- Hval, mult_IZR. replace er with ((er - (e + k)) + (e + k)) at 1 by lia.
    rewrite bpow_add, (bpow_IZR (er - (e + k))) by lia. fold g. ring. }
  assert (Hv : v = (IZR n / IZR (d * 2 ^ k) * g)%R).
  { unfold v, g. rewrite bpow_add, (bpow_IZR k), mult_IZR by done. field. lra. }
  pose proof (IZR_div_bounds n (d * 2 ^ k) ltac:(nia)) as [Hw1 Hw2]. fold mk in Hw1, Hw2.
  set (w := (IZR n / IZR (d * 2 ^ k))%R) in *.
  assert (Hmk52 : (4503599627370496 <= IZR mk)%R).
  { change 4503599627370496%R with (IZR (2 ^ 52)). apply IZR_le. lia. }
  assert (HM1 : (IZR mk <= IZR M <= IZR mk + 1)%R).
  { split; [apply IZR_le; lia|]. rewrite <- plus_IZR. apply IZR_le. lia. }
  assert (Hu : ulp1 = (/ 4503599627370496)%R).
  { unfold ulp1, bpow. change (-52) with (- (52)).
    rewrite powerRZ_neg'. f_equal.
    change (powerRZ 2 52) with (bpow 52). rewrite bpow_IZR by lia. reflexivity. }
  rewrite Hres, Hv, Hu.
  split; [apply Rmult_lt_0_compat; lra|].
  assert (Hwu : (w * / 4503599627370496 >= 1)%R) by lra.
  split.
  - replace (w * g * (1 - / 4503599627370496))%R
      with ((w - w * / 4503599627370496) * g)%R by ring.
    apply Rmult_le_compat_r; lra.
  - replace (w * g * (1 + / 4503599627370496))%R
      with ((w + w * / 4503599627370496) * g)%R by ring.
    apply Rmult_le_compat_r; lra.
Qed.

(** ** Division and multiplication of normal positive numbers *)

Lemma normal_mantissa m : Zdigits2 (Z.pos m) = 53 -> 2 ^ 52 <= Z.pos m < 2 ^ 53.
Proof. intros H. pose proof (Zdigits2_bounds (Z.pos m) ltac:(lia)) as Hb. by rewrite H in Hb. Qed.

Lemma new_location_loc_of d r :
  0 < d -> 0 <= r < d -> new_location d r = loc_of r d.
Proof.
  intros Hd Hr. unfold new_location, new_location_even, new_location_odd, loc_of.
  destruct (Z.even d) eqn:Hev; [done|].
  destruct (Z.eqb_spec r 0); [done|]. f_equal.
  assert (Hodd : Z.odd d = true) by (by rewrite <- Z.negb_even, Hev).
  apply Zodd_bool_iff, Zodd_ex in Hodd as [h Hh].
  destruct (Z.compare_spec (2 * r + 1) d); symmetry;
    [apply Z.compare_lt_iff | apply Z.compare_lt_iff | apply Z.compare_gt_iff]; lia.
Qed.

Lemma Zdigits2_range q lo hi :
  0 < lo -> 2 ^ (lo - 1) <= q < 2 ^ hi -> lo <= Zdigits2 q <= hi.
Proof.
  intros Hlo [H1 H2].
  assert (Hq : 0 < q) by (pose proof (Z.pow_pos_nonneg 2 (lo - 1)); lia).
  pose proof (Zdigits2_bounds q Hq) as [Ha Hb].
  assert (H0 : 0 < Zdigits2 q) by (destruct q; simpl; lia).
  split.
  - destruct (Z.le_gt_cases lo (Zdigits2 q)) as [|Hgt]; [done|].
    assert (2 ^ Zdigits2 q <= 2 ^ (lo - 1)) by (apply Z.pow_le_mono_r; lia). lia.
  - destruct (Z.le_gt_cases (Zdigits2 q) hi) as [|Hgt]; [done|].
    assert (2 ^ hi <= 2 ^ (Zdigits2 q - 1)) by (apply Z.pow_le_mono_r; lia). lia.
Qed.

Lemma div_normal x mx ex y my ey :
  normal_pos x mx ex -> normal_pos y my ey ->
  -1000 <= ex - ey <= 1000 ->
  exists mz ez,
    normal_pos (div x y) mz ez /\
    ex - ey - 53 <= ez <= ex - ey - 51 /\
    let v := (B2R x / B2R y)%R in
    (0 < v /\ v * (1 - ulp1) <= B2R (div x y) <= v * (1 + ulp1))%R.
Proof.
  intros [-> Hdx] [-> Hdy] He.
  pose proof (normal_mantissa mx Hdx) as Hmx. pose proof (normal_mantissa my Hdy) as Hmy.
  change (2 ^ 52) with 4503599627370496 in *.
  change (2 ^ 53) with 9007199254740992 in *.
  unfold div, SFdiv, SFdiv_core_binary. rewrite Hdx, Hdy.
  replace (53 + ex - (53 + ey)) with (ex - ey) by lia.
  rewrite fexp_normal by lia. rewrite Z.min_l by lia.
  replace (ex - ey - (ex - ey - 53)) with 53 by lia.
  cbv beta iota zeta. rewrite Z.shiftl_mul_pow2 by lia.
  change (2 ^ 53) with 9007199254740992.
  set (n := Z.pos mx * 9007199254740992).
  assert (Hdivmod : Z.div_eucl n (Z.pos my) = (n / Z.pos my, n mod Z.pos my)).
  { unfold Z.div, Z.modulo. by destruct (Z.div_eucl n (Z.pos my)). }
  rewrite Hdivmod. cbv beta iota zeta.
  pose proof (Z.mod_pos_bound n (Z.pos my) ltac:(lia)) as Hr.
  rewrite new_location_loc_of by lia.
  assert (Hq : 2 ^ (53 - 1) <= n / Z.pos my < 2 ^ 54).
  { change (2 ^ (53 - 1)) with 4503599627370496.
    change (2 ^ 54) with 18014398509481984. split.
    - apply Z.div_le_lower_bound; lia.
    - apply Z.div_lt_upper_bound; lia. }
  pose proof (Zdigits2_range _ 53 54 ltac:(lia) Hq) as Hdq.
  destruct (binary_round_aux_error (xorb false false) n (Z.pos my) (ex - ey - 53))
    as (mr & er & Heq & Hdr & Her & Hv); try lia.
  rewrite Heq. exists mr, er. split; [by split|]. split; [lia|].
  simpl xorb. unfold B2R, signed.
  assert (Hvv : (IZR n / IZR (Z.pos my) * bpow (ex - ey - 53)
                 = IZR (Z.pos mx) * bpow ex / (IZR (Z.pos my) * bpow ey))%R).
  { unfold n. rewrite mult_IZR.
    replace ex with ((ex - ey - 53) + 53 + ey) at 2 by lia.
    rewrite !bpow_add, (bpow_IZR 53) by lia.
    change (2 ^ 53) with 9007199254740992.
    pose proof (bpow_pos ey). pose proof (bpow_pos (ex - ey - 53)).
    assert (0 < IZR (Z.pos my))%R by (apply IZR_lt; lia).
    field. lra. }
  rewrite <- Hvv. exact Hv.
Qed.

Lemma mul_normal x mx ex y my ey :
  normal_pos x mx ex -> normal_pos y my ey ->
  -1000 <= ex + ey <= 900 ->
  exists mz ez,
    normal_pos (mul x y) mz ez /\
    ex + ey + 52 <= ez <= ex + ey + 54 /\
    let v := (B2R x * B2R y)%R in
    (0 < v /\ v * (1 - ulp1) <= B2R (mul x y) <= v * (1 + ulp1))%R.
Proof.
  intros [-> Hdx] [-> Hdy] He.
  pose proof (normal_mantissa mx Hdx) as Hmx. pose proof (normal_mantissa my Hdy) as Hmy.
  change (2 ^ 52) with 4503599627370496 in *.
  change (2 ^ 53) with 9007199254740992 in *.
  unfold mul, SFmul.
  set (n := Z.pos (mx * my)).
  assert (Hn : n = Z.pos mx * Z.pos my) by (unfold n; lia).
  assert (Hq : 2 ^ (105 - 1) <= n / 1 < 2 ^ 106).
  { rewrite Z.div_1_r, Hn.
    change (2 ^ (105 - 1)) with (4503599627370496 * 4503599627370496).
    change (2 ^ 106) with (9007199254740992 * 9007199254740992). nia. }
  pose proof (Zdigits2_range _ 105 106 ltac:(lia) Hq) as Hdq.
  destruct (binary_round_aux_error (xorb false false) n 1 (ex + ey))
    as (mr & er & Heq & Hdr & Her & Hv); try lia.
  rewrite Z.div_1_r, Z.mod_1_r in Heq. change (loc_of 0 1) with loc_Exact in Heq.
  rewrite Z.div_1_r in Her, Hdq.
  rewrite Heq. exists mr, er. split; [by split|]. split; [lia|].
  simpl xorb. unfold B2R, signed.
  assert (Hvv : (IZR n / 1 * bpow (ex + ey)
                 = IZR (Z.pos mx) * bpow ex * (IZR (Z.pos my) * bpow ey))%R).
  { rewrite Hn, mult_IZR, bpow_add. field. }
  rewrite <- Hvv. exact Hv.
Qed.

Lemma of_Z_normal n :
  0 < n < 2 ^ 53 ->
  normal_pos (of_Z n) (int_mantissa n) (int_exponent n) /\
  -52 <= int_exponent n <= 0 /\
  B2R (of_Z n) = IZR n.
Proof.
  intros Hn. pose proof (Zdigits2_pos_le n Hn) as Hd.
  destruct (int_mantissa_spec n Hn) as [Hm Hdm].
  split; [split; [by apply of_Z_pos | done]|].
  split; [unfold int_exponent; lia|].
  rewrite of_Z_pos by done. unfold B2R, signed, int_exponent.
  rewrite Hm, mult_IZR, <- (bpow_IZR (53 - Zdigits2 n)) by lia.
  rewrite Rmult_assoc, <- bpow_add.
  replace (53 - Zdigits2 n + (Zdigits2 n - 53)) with 0 by lia.
  unfold bpow. simpl. ring.
Qed.

(** ** Rounding to an integer and the percentage pipeline *)

Lemma ulp1_value : ulp1 = (/ 4503599627370496)%R.
Proof.
  unfold ulp1, bpow. change (-52) with (- (52)).
  rewrite powerRZ_neg'. f_equal.
  change (powerRZ 2 52) with (bpow 52). rewrite bpow_IZR by lia. reflexivity.
Qed.

Lemma Math_round_normal x m e :
  normal_pos x m e -> e < 0 ->
  exists k, Math_round x = of_Z k /\ 0 <= k /\
            (IZR k <= B2R x + / 2 < IZR k + 1)%R.
Proof.
  intros [-> Hd] He. unfold Math_round, signed.
  destruct (Z.leb_spec 0 e) as [|_]; [lia|].
  set (k := (2 * Z.pos m + 2 ^ (- e)) / 2 ^ (1 - e)).
  pose proof (Z.pow_pos_nonneg 2 (- e) ltac:(lia) ltac:(lia)) as Hp.
  assert (Hp1 : 2 ^ (1 - e) = 2 * 2 ^ (- e)).
  { replace (1 - e) with (1 + - e) by lia. rewrite Z.pow_add_r by lia. done. }
  assert (Hk : 0 <= k) by (apply Z.div_pos; lia).
  exists k. split; [|split; [done|]].
  - destruct (Z.eqb_spec k 0) as [->|]; reflexivity.
  - pose proof (IZR_div_bounds (2 * Z.pos m + 2 ^ (- e)) (2 ^ (1 - e)) ltac:(lia)) as Hb.
    fold k in Hb.
    assert (HP : (0 < IZR (2 ^ (- e)))%R) by (apply IZR_lt; lia).
    assert (Hbe : (bpow e = / IZR (2 ^ (- e)))%R).
    { replace e with (- - e) at 1 by lia. unfold bpow. rewrite powerRZ_neg'.
      f_equal. apply bpow_IZR. lia. }
    assert (Hv : (IZR (2 * Z.pos m + 2 ^ (- e)) / IZR (2 ^ (1 - e))
                  = IZR (Z.pos m) * bpow e + / 2)%R).
    { rewrite Hp1, Hbe, plus_IZR, !mult_IZR. field. lra. }
    rewrite Hv in Hb. simpl B2R. unfold signed. exact Hb.
Qed.

Lemma roundedPercent_zero t :
  0 < t < 2 ^ 53 -> fst (roundedPercent (of_Z 0) (of_Z t)) = of_Z 0.
Proof. intros Ht. rewrite (of_Z_pos t) by done. reflexivity. Qed.

Lemma roundedPercent_value c t :
  0 < c < 2 ^ 53 -> 0 < t < 2 ^ 53 -> 100 * c <= 2 ^ 50 * t ->
  exists k, fst (roundedPercent (of_Z c) (of_Z t)) = of_Z k /\ 0 <= k /\
    let X := (100 * IZR c / IZR t)%R in
    (X * (1 - ulp1) * (1 - ulp1) - / 2 < IZR k <= X * (1 + ulp1) * (1 + ulp1) + / 2)%R.
Proof.
  intros Hc Ht Hratio.
  destruct (of_Z_normal c Hc) as (Hnc & Hec & Hvc).
  destruct (of_Z_normal t Ht) as (Hnt & Het & Hvt).
  destruct (of_Z_normal 100 ltac:(lia)) as (Hn100 & _ & Hv100).
  change (int_exponent 100) with (-46) in Hn100.
  destruct (div_normal _ _ _ _ _ _ Hnc Hnt ltac:(lia)) as (mq & eq & Hnq & Heq & Hvq).
  destruct (mul_normal _ _ _ _ _ _ Hnq Hn100 ltac:(lia)) as (mx & ex & Hnx & Hex & Hvx).
  cbv zeta in Hvq, Hvx. rewrite Hvc, Hvt in Hvq. rewrite Hv100 in Hvx.
  set (q := div (of_Z c) (of_Z t)) in *.
  set (x := mul q (of_Z 100)) in *.
  change (fst (roundedPercent (of_Z c) (of_Z t))) with (Math_round x).
  rewrite ulp1_value in *.
  assert (HC : (0 < IZR c)%R) by (apply IZR_lt; lia).
  assert (HT : (0 < IZR t)%R) by (apply IZR_lt; lia).
  set (X := (100 * IZR c / IZR t)%R).
  assert (HX : X = (IZR c / IZR t * 100)%R) by (unfold X; field; lra).
  destruct Hvq as (Hq0 & Hq1 & Hq2). destruct Hvx as (Hx0 & Hx1 & Hx2).
  assert (Hlo : (X * (1 - / 4503599627370496) * (1 - / 4503599627370496) <= B2R x)%R).
  { rewrite HX. lra. }
  assert (Hhi : (B2R x <= X * (1 + / 4503599627370496) * (1 + / 4503599627370496))%R).
  { rewrite HX. lra. }
  assert (HXb : (X <= 1125899906842624)%R).
  { unfold X. apply Rmult_le_reg_r with (IZR t); [done|].
    replace (100 * IZR c / IZR t * IZR t)%R with (100 * IZR c)%R by (field; lra).
    change 100%R with (IZR 100). change 1125899906842624%R with (IZR (2 ^ 50)).
    rewrite <- !mult_IZR. by apply IZR_le. }
  assert (HX0 : (0 < X)%R) by (rewrite HX; lra).
  assert (Hneg : ex < 0).
  { destruct (Z.lt_ge_cases ex 0) as [|Hge]; [done|]. exfalso.
    destruct Hnx as [Hxeq Hdx]. rewrite Hxeq in Hhi. simpl B2R in Hhi. unfold signed in Hhi.
    pose proof (normal_mantissa mx Hdx) as [Hm _].
    apply IZR_le in Hm. change (IZR (2 ^ 52)) with 4503599627370496%R in Hm.
    assert (1 <= bpow ex)%R.
    { rewrite bpow_IZR by done. change 1%R with (IZR 1). apply IZR_le.
      pose proof (Z.pow_pos_nonneg 2 ex ltac:(lia) Hge). lia. }
    nra. }
  destruct (Math_round_normal x mx ex Hnx Hneg) as (k & Hk & Hk0 & Hkb).
  exists k. split; [done|]. split; [done|]. lra.
Qed.

(** What the two bounds give on integers. *)
Lemma roundedPercent_range c t :
  0 <= c <= t -> 0 < t < 2 ^ 53 ->
  exists k, fst (roundedPercent (of_Z c) (of_Z t)) = of_Z k /\ 0 <= k <= 100.
Proof.
  intros Hc Ht. destruct (Z.eq_dec c 0) as [->|Hc0].
  { exists 0. split; [by apply roundedPercent_zero | lia]. }
  destruct (roundedPercent_value c t ltac:(lia) Ht) as (k & Hk & Hk0 & Hb).
  { change (2 ^ 50) with 1125899906842624. lia. }
  exists k. split; [done|]. split; [done|].
  cbv zeta in Hb. rewrite ulp1_value in Hb.
  assert (HC : (0 < IZR c)%R) by (apply IZR_lt; lia).
  assert (HT : (0 < IZR t)%R) by (apply IZR_lt; lia).
  assert (HX : (100 * IZR c / IZR t <= 100)%R).
  { apply Rmult_le_reg_r with (IZR t); [done|].
    replace (100 * IZR c / IZR t * IZR t)%R with (100 * IZR c)%R by (field; lra).
    assert (IZR c <= IZR t)%R by (apply IZR_le; lia). lra. }
  assert (HX0 : (0 < 100 * IZR c / IZR t)%R).
  { apply Rmult_lt_0_compat; [lra|]. by apply Rinv_0_lt_compat. }
  assert (Hlt : (IZR k < IZR 101)%R) by (simpl; lra).
  apply lt_IZR in Hlt. lia.
Qed.

Lemma roundedPercent_nearest c t :
  0 <= c <= 2 ^ 43 -> 0 < t < 2 ^ 53 ->
  exists k, fst (roundedPercent (of_Z c) (of_Z t)) = of_Z k /\ 0 <= k /\
            200 * c - t <= 2 * t * k <= 200 * c + t.
Proof.
  intros Hc Ht. change (2 ^ 43) with 8796093022208 in Hc.
  destruct (Z.eq_dec c 0) as [->|Hc0].
  { exists 0. split; [by apply roundedPercent_zero | lia]. }
  destruct (roundedPercent_value c t) as (k & Hk & Hk0 & Hb); try done.
  { change (2 ^ 53) with 9007199254740992. lia. }
  { change (2 ^ 50) with 1125899906842624. lia. }
  exists k. split; [done|]. split; [done|].
  cbv zeta in Hb. rewrite ulp1_value in Hb.
  assert (HC : (0 < IZR c <= 8796093022208)%R).
  { split; [apply IZR_lt; lia|]. apply IZR_le. lia. }
  assert (HT : (0 < IZR t)%R) by (apply IZR_lt; lia).
  set (X := (100 * IZR c / IZR t)%R) in *.
  assert (HXT : (X * IZR t = 100 * IZR c)%R) by (unfold X; field; lra).
  destruct Hb as [Hlo Hhi].
  assert (Hup : (2 * IZR t * IZR k < 200 * IZR c + IZR t + 1)%R).
  { apply Rmult_le_compat_r with (r := IZR t) in Hhi; [|lra]. nra. }
  assert (Hdn : (200 * IZR c - IZR t - 1 < 2 * IZR t * IZR k)%R).
  { apply Rmult_lt_compat_r with (r := IZR t) in Hlo; [|lra]. nra. }
  assert (Hup' : (IZR (2 * t * k) < IZR (200 * c + t + 1))%R)
    by (rewrite !plus_IZR, !mult_IZR; lra).
  assert (Hdn' : (IZR (200 * c - t - 1) < IZR (2 * t * k))%R)
    by (rewrite !minus_IZR, !mult_IZR; lra).
  apply lt_IZR in Hup', Hdn'. lia.
Qed.
(** ** The two thresholds of the pass probability *)



End NumFacts.

(** ** Substring test *)

Lemma String_append_cons a s t : String a s +:+ t = String a (s +:+ t).
Proof. reflexivity. Qed.
Lemma String_prefix_spec (needle s : string) :
  String.prefix needle s = true <-> exists post, s = needle +:+ post.
Proof.
  revert s. induction needle as [|a needle IH]; intros [|b s]; simpl.
  - split; [intros _; by exists EmptyString | done].
  - split; [intros _; by exists (String b s) | done].
  - split; [done | intros [post H]; discriminate].
  - setoid_rewrite String_append_cons. destruct (Ascii.ascii_dec a b) as [->|Hne].
    + rewrite IH. split; intros [post H]; exists post; congruence.
    + split; [done | intros [post H]; congruence].
Qed.
Lemma String_includes_spec (needle s : string) :
  String_includes needle s = true <->
  exists pre post, s = pre +:+ needle +:+ post.
Proof.
  induction s as [|a s IH].
  - change (String_includes needle "") with (String.prefix needle "" || false).
    rewrite orb_false_r, String_prefix_spec. split.
    + intros [post H]. by exists EmptyString, post.
    + intros [[|b pre] [post H]]; [by exists post | discriminate].
  - change (String_includes needle (String a s))
      with (String.prefix needle (String a s) || String_includes needle s).
    rewrite orb_true_iff, String_prefix_spec, IH. split.
    + intros [[post H] | [pre [post H]]].
      * by exists EmptyString, post.
      * exists (String a pre), post. rewrite String_append_cons. by rewrite H.
    + intros [[|b pre] [post H]].
      * left. by exists post.
      * right. exists pre, post. rewrite String_append_cons in H. congruence.
Qed.

(** ** Study and mock categories *)

(** C9: the two filtered lists split the category table.  Each category
    goes to the mock list exactly when its name contains "Mock" and to the
    study list otherwise, never to both; together the two lists hold the
    table's entries with their multiplicities, and each is a subsequence of
    the table, so the table's order is kept. *)
Theorem C9_categories_partition (categories : list Category.t) :
  (forall c, c ∈ mockCategories categories <->
             c ∈ categories /\
             exists pre post, Category.name c = pre +:+ "Mock" +:+ post) /\
  (forall c, c ∈ studyCategories categories <->
             c ∈ categories /\
             ~ exists pre post, Category.name c = pre +:+ "Mock" +:+ post) /\
  (forall c, ~ (c ∈ mockCategories categories /\ c ∈ studyCategories categories)) /\
  mockCategories categories ++ studyCategories categories ≡ₚ categories /\
  sublist (studyCategories categories) categories /\
  sublist (mockCategories categories) categories.
Proof.
  unfold mockCategories, studyCategories, isMock.
  assert (Hm : forall c, c ∈ filter (fun c => String_includes "Mock" (Category.name c) = true) categories <->
             c ∈ categories /\
             exists pre post, Category.name c = pre +:+ "Mock" +:+ post).
  { intros c. rewrite list_elem_of_filter, String_includes_spec. tauto. }
  assert (Hs : forall c, c ∈ filter (fun c => negb (String_includes "Mock" (Category.name c)) = true) categories <->
             c ∈ categories /\
             ~ exists pre post, Category.name c = pre +:+ "Mock" +:+ post).
  { intros c. rewrite list_elem_of_filter, negb_true_iff, <- String_includes_spec.
    rewrite not_true_iff_false. tauto. }
  split; [exact Hm|]. split; [exact Hs|]. split; [|split; [|split]].
  - intros c [H1 H2]. apply Hm in H1. apply Hs in H2. tauto.
  - rewrite <- (filter_app_complement
                  (fun c => String_includes "Mock" (Category.name c) = true) categories) at 3.
    apply Permutation_app_head.
    erewrite list_filter_iff; [reflexivity|].
    intros c; simpl. rewrite negb_true_iff, not_true_iff_false. tauto.
  - apply sublist_filter.
  - apply sublist_filter.
Qed.

Lemma C9_categories_partition_witness :
  mockCategories sampleCategories ++ studyCategories sampleCategories
    ≡ₚ sampleCategories /\
  Category.name <$> mockCategories sampleCategories = ["Regulatory Mock 1"].
Proof.
  split; [|reflexivity].
  exact (proj1 (proj2 (proj2 (proj2 (C9_categories_partition sampleCategories))))).
Defined.

(** ** Quick actions *)

(** C7: the quick-action list has exactly four entries with the four
    study links; only the third one, the review of incorrect questions,
    carries a [disabled] flag, which is set exactly when the count of
    incorrect questions is 0 (a null progress or a missing list counts as
    0); its description shows that count in decimal; the link of a disabled
    action is "#", any other action links to its own target. *)
Theorem C7_quickActions (progress : option UserProgress) :
  let count := getIncorrectQuestionsCount progress in
  length (quickActions progress) = 4 /\
  href <$> quickActions progress =
    ["/study?mode=category"; "/study?mode=mock";
     "/study/session?mode=review"; "/questions"] /\
  count = match progress with
          | Some p => match incorrectQuestions p with
                      | Some l => length l
                      | None => 0
                      end
          | None => 0
          end /\
  (exists a1 a2 review a4,
      quickActions progress = [a1; a2; review; a4] /\
      disabled a1 = None /\ disabled a2 = None /\ disabled a4 = None /\
      title review = "間違えた問題を復習" /\
      (default false (disabled review) = true <-> count = 0) /\
      description review = pretty count +:+ "問の復習が可能" /\
      (linkHref review = "#" <-> count = 0)) /\
  (forall a : QuickAction, default false (disabled a) = true -> linkHref a = "#") /\
  (forall a : QuickAction, default false (disabled a) = false -> linkHref a = href a).
Proof.
  intros count. split; [reflexivity|]. split; [reflexivity|]. split.
  { unfold count, getIncorrectQuestionsCount.
    destruct progress as [p|]; simpl; [|reflexivity].
    destruct (incorrectQuestions p); reflexivity. }
  split.
  { eexists _, _, _, _. split; [reflexivity|]. simpl.
    fold count. unfold linkHref; simpl.
    repeat split; try done.
    - intros H. by apply Nat.eqb_eq.
    - intros H. by apply Nat.eqb_eq.
    - destruct (Nat.eqb_spec count 0); [done | discriminate].
    - intros ->. reflexivity. }
  split; intros a Ha; unfold linkHref; by rewrite Ha.
Qed.

Lemma C7_quickActions_witness :
  (linkHref <$> quickActions None) !! 2 = Some "#".
Proof.
  destruct (C7_quickActions None) as (_ & _ & _ & _ & Hdis & _).
  exact (f_equal Some
           (Hdis {| title := "間違えた問題を復習";
                    description := pretty 0 +:+ "問の復習が可能";
                    icon := "AlertCircle";
                    href := "/study/session?mode=review";
                    action_color := "bg-orange-500";
                    disabled := Some true |} eq_refl)).
Defined.

(** ** Mock exam history *)

Lemma Array_slice_last {A} (n : nat) (arr : list A) :
  0 < n -> Array_slice (- Z.of_nat n) arr = drop (length arr - n) arr.
Proof.
  intros Hn. unfold Array_slice.
  destruct (Z.ltb_spec (- Z.of_nat n) 0) as [_|H]; [|lia].
  f_equal. lia.
Qed.

(** C8: when the read of the history succeeds, the displayed history is
    the last [min 5 length] entries of the stored list, most recent first:
    entry [i] of the display is entry [length - 1 - i] of the stored list.
    It has at most 5 elements, and it is empty when nothing is stored. *)
Theorem C8_loadMockExamHistory {Store ErrState : Type}
    (env : Env Store ErrState) (user : option User)
    (s : State Store ErrState) (stored : option (list json)) :
  getItem_history env (historyKey user) (storage s) = Ok stored ->
  let history := default [] stored in
  let s' := fst (loadMockExamHistory env user s) in
  length (mockExamHistory s') = Nat.min 5 (length history) /\
  (forall i, i < Nat.min 5 (length history) ->
             mockExamHistory s' !! i = history !! (length history - 1 - i)) /\
  length (mockExamHistory s') <= 5 /\
  (stored = None -> mockExamHistory s' = []) /\
  progress s' = progress s /\ storage s' = storage s /\ console s' = console s.
Proof.
  intros Hget history s'.
  assert (Hs' : mockExamHistory s' = reverse (drop (length history - 5) history)
                /\ progress s' = progress s /\ storage s' = storage s
                /\ console s' = console s).
  { unfold s', loadMockExamHistory, try_catch, bind, lift. rewrite Hget. simpl.
    fold history. by rewrite (Array_slice_last 5) by lia. }
  destruct Hs' as (Hm & Hp & Hst & Hc). rewrite Hm.
  assert (Hlen : length (reverse (drop (length history - 5) history))
                 = Nat.min 5 (length history)).
  { rewrite length_reverse, length_drop. lia. }
  split; [exact Hlen|]. split; [|split; [lia|split; [|done]]].
  - intros i Hi. rewrite reverse_lookup by (rewrite length_drop; lia).
    rewrite lookup_drop, length_drop. f_equal. lia.
  - intros ->. reflexivity.
Qed.

(** When the read throws, the handler logs the error and nothing else
    changes. *)
Lemma loadMockExamHistory_throw {Store ErrState : Type}
    (env : Env Store ErrState) (user : option User)
    (s : State Store ErrState) (e : exn) :
  getItem_history env (historyKey user) (storage s) = Throw e ->
  let s' := fst (loadMockExamHistory env user s) in
  mockExamHistory s' = mockExamHistory s /\ progress s' = progress s /\
  storage s' = storage s /\
  console s' = console s ++ [("Failed to load mock exam history:", e)].
Proof.
  intros Hget. unfold loadMockExamHistory, try_catch, bind, lift. by rewrite Hget.
Qed.

Lemma C8_loadMockExamHistory_witness :
  mockExamHistory
    (fst (loadMockExamHistory (mapEnv Ok) (Some {| nickname := "taro" |})
            (emptyState sampleStore)))
  !! 0 = Some (JStr "e7").
Proof.
  pose proof (C8_loadMockExamHistory (mapEnv Ok) (Some {| nickname := "taro" |})
                (emptyState sampleStore) (Some sampleHistory) eq_refl) as H.
  simpl in H. destruct H as (_ & H & _). exact (H 0 ltac:(simpl; lia)).
Defined.

(** ** Loading the user's progress *)

Section InitialCategoryProgress.
Implicit Types (m : gmap string CategoryData.t) (l : list Category.t).

Lemma assignAll_other m l k :
  k ∉ Category.name <$> l -> assignAll m l !! k = m !! k.
Proof.
  revert m. induction l as [|c l IH]; intros m Hk; [done|].
  simpl in *. rewrite not_elem_of_cons in Hk. destruct Hk as [Hne Hk].
  unfold assignAll in *. simpl. rewrite IH by done. by rewrite lookup_insert_ne.
Qed.

Lemma assignAll_origin m l k d :
  assignAll m l !! k = Some d ->
  m !! k = Some d \/ exists c, c ∈ l /\ Category.name c = k /\ d = freshEntry c.
Proof.
  revert m. induction l as [|c l IH]; intros m H; [by left|].
  unfold assignAll in *. simpl in H. apply IH in H as [H | (c' & Hin & Hn & Hd)].
  - destruct (decide (Category.name c = k)) as [<-|Hne].
    + rewrite lookup_insert_eq in H. right. exists c. split; [left|]. naive_solver.
    + rewrite lookup_insert_ne in H by done. by left.
  - right. exists c'. split; [by right | done].
Qed.

Lemma assignAll_present m l c :
  c ∈ l -> exists c', c' ∈ l /\ Category.name c' = Category.name c /\
                      assignAll m l !! Category.name c = Some (freshEntry c').
Proof.
  revert m c. induction l as [|c0 l IH]; intros m c Hin; [by apply elem_of_nil in Hin|].
  unfold assignAll. simpl. fold (assignAll (<[Category.name c0 := freshEntry c0]> m) l).
  destruct (decide (Category.name c ∈ Category.name <$> l)) as [Hd|Hd].
  - apply list_elem_of_fmap in Hd as (c1 & Hn & Hc1).
    destruct (IH (<[Category.name c0 := freshEntry c0]> m) c1 Hc1) as (c' & H1 & H2 & H3).
    exists c'. split; [by right|]. split; [congruence|]. by rewrite Hn.
  - apply elem_of_cons in Hin as [->|Hin].
    + exists c0. split; [left|]. split; [done|].
      rewrite assignAll_other by done. apply lookup_insert_eq.
    + exfalso. apply Hd. apply list_elem_of_fmap. by exists c.
Qed.

Lemma assignAll_NoDup m l c :
  NoDup (Category.name <$> l) -> c ∈ l ->
  assignAll m l !! Category.name c = Some (freshEntry c).
Proof.
  revert m. induction l as [|c0 l IH]; intros m Hnd Hin; [by apply elem_of_nil in Hin|].
  simpl in Hnd. apply NoDup_cons in Hnd as [Hfresh Hnd].
  unfold assignAll. simpl. fold (assignAll (<[Category.name c0 := freshEntry c0]> m) l).
  apply elem_of_cons in Hin as [->|Hin].
  - rewrite assignAll_other by done. apply lookup_insert_eq.
  - by apply IH.
Qed.
End InitialCategoryProgress.

Ltac unfold_loader :=
  unfold loadUserProgress, loadUserProgress_body, loadUserProgress_catch,
    finally, try_catch, bind, lift, liftResult, setLoading, setProgress,
    storeItem, reportError; simpl.

(** C4: when the read under [userProgress_<nickname>] gives null, the
    loader builds the fresh progress (zero counters, empty lists, one
    zeroed entry under the name of every category and no other entry),
    displays it, and hands that same value to [setItem] under the same key;
    when the read gives a value, the validated value is displayed and the
    storage is left as it was. *)
Theorem C4_loadUserProgress {Store ErrState : Type}
    (env : Env Store ErrState) (categories : list Category.t)
    (user : option User) (s : State Store ErrState) :
  let key := userProgressKey user in
  let init := initialProgress categories in
  key = "userProgress_" +:+ nicknameText user /\
  (forall st',
      getItem_progress env key (storage s) = Ok None ->
      setItem env key init (storage s) = Ok st' ->
      exists s', loadUserProgress env categories user s = (s', Ok tt) /\
                 progress s' = Some init /\ storage s' = st' /\
                 loading s' = false /\ errorState s' = errorState s) /\
  (totalQuestionsAnswered init = Num.of_Z 0 /\ correctAnswers init = Num.of_Z 0 /\
   currentStreak init = Num.of_Z 0 /\ studySessions init = [] /\
   incorrectQuestions init = Some [] /\ overcomeQuestions init = Some []) /\
  (forall c, c ∈ categories ->
             exists d, categoryProgress init !! Category.name c = Some d /\
                       CategoryData.answeredQuestions d = Num.of_Z 0 /\
                       CategoryData.correctAnswers d = Num.of_Z 0) /\
  (forall k d, categoryProgress init !! k = Some d ->
               exists c, c ∈ categories /\ Category.name c = k /\ d = freshEntry c) /\
  (NoDup (Category.name <$> categories) ->
   forall c, c ∈ categories ->
             categoryProgress init !! Category.name c = Some (freshEntry c)) /\
  (forall parsed validated,
      getItem_progress env key (storage s) = Ok (Some parsed) ->
      validateAndFixProgress env parsed = Ok validated ->
      exists s', loadUserProgress env categories user s = (s', Ok tt) /\
                 progress s' = Some validated /\ storage s' = storage s /\
                 loading s' = false /\ errorState s' = errorState s).
Proof.
  intros key init. split; [reflexivity|]. split.
  { intros st' Hget Hset. unfold_loader. fold key. rewrite Hget. simpl.
    fold init. rewrite Hset. eexists. split; [reflexivity|]. by simpl. }
  split; [by repeat split|]. split.
  { intros c Hc. destruct (assignAll_present ∅ categories c Hc) as (c' & _ & _ & H).
    exists (freshEntry c'). by split. }
  split.
  { intros k d H. apply assignAll_origin in H as [H|H]; [|done].
    by rewrite lookup_empty in H. }
  split; [intros Hnd c Hc; by apply assignAll_NoDup|].
  intros parsed validated Hget Hval. unfold_loader. fold key. rewrite Hget. simpl.
  rewrite Hval. eexists. split; [reflexivity|]. by simpl.
Qed.

Lemma C4_loadUserProgress_witness :
  let user := Some {| nickname := "taro" |} in
  let empty := {| progress_items := ∅; history_items := ∅ |} in
  let s' := fst (loadUserProgress (mapEnv Ok) sampleCategories user (emptyState empty)) in
  progress s' = Some (initialProgress sampleCategories) /\
  progress_items (storage s') !! "userProgress_taro"
    = Some (initialProgress sampleCategories).
Proof.
  intros user empty.
  destruct (C4_loadUserProgress (mapEnv Ok) sampleCategories user (emptyState empty))
    as (_ & Hfresh & _).
  destruct (Hfresh _ eq_refl eq_refl) as (s1 & Heq & Hp & Hst & _).
  simpl. rewrite Heq. simpl. split; [exact Hp|]. rewrite Hst.
  simpl. apply lookup_insert_eq.
Defined.

(** C5: when the body of the loader throws, the handler does one thing:
    it reports the thrown value through [handleError] with the fixed
    message.  It leaves the progress state as the body left it, writes
    nothing to storage, and the loader still ends with [loading] false.  A
    throw of the read or of the validator comes before any update, so the
    progress then is the one from before the call (null if nothing had been
    loaded); a throw of [setItem] comes after the fresh progress was
    displayed.  Loading is false after every run. *)
Theorem C5_loadUserProgress_failure {Store ErrState : Type}
    (env : Env Store ErrState) (categories : list Category.t)
    (user : option User) (s : State Store ErrState) :
  let msg := "学習進捗の読み込みに失敗しました" in
  let key := userProgressKey user in
  let init := initialProgress categories in
  let s' := fst (loadUserProgress env categories user s) in
  (forall e s1,
      exists s2, loadUserProgress_catch env e s1 = (s2, Ok tt) /\
                 progress s2 = progress s1 /\ storage s2 = storage s1 /\
                 loading s2 = loading s1 /\
                 mockExamHistory s2 = mockExamHistory s1 /\
                 errorState s2 = handleError env e msg (errorState s1)) /\
  (forall s1 e,
      loadUserProgress_body env categories user s = (s1, Throw e) ->
      errorState s' = handleError env e msg (errorState s) /\
      storage s' = storage s /\
      progress s' = progress s1 /\
      (progress s1 = progress s \/
       getItem_progress env key (storage s) = Ok None /\
       setItem env key init (storage s) = Throw e /\
       progress s1 = Some init)) /\
  (forall e, getItem_progress env key (storage s) = Throw e ->
             progress s' = progress s /\ storage s' = storage s) /\
  (forall parsed e,
      getItem_progress env key (storage s) = Ok (Some parsed) ->
      validateAndFixProgress env parsed = Throw e ->
      progress s' = progress s /\ storage s' = storage s) /\
  loading s' = false /\
  snd (loadUserProgress env categories user s) = Ok tt.
Proof.
  intros msg key init s'. split.
  { intros e s1. unfold loadUserProgress_catch, reportError.
    eexists. split; [reflexivity|]. by simpl. }
  unfold s'. unfold_loader. fold key init.
  destruct (getItem_progress env key (storage s)) as [[parsed|]|e0] eqn:Hget; simpl.
  - destruct (validateAndFixProgress env parsed) as [v|e1] eqn:Hval; simpl.
    + split_and!; try done.
      intros parsed' e Hp. injection Hp as <-. by rewrite Hval.
    + split_and!; try done.
      intros s1 e H. injection H as <- <-. split_and!; try done. by left.
  - destruct (setItem env key init (storage s)) as [st|e1] eqn:Hset; simpl.
    + split_and!; done.
    + split_and!; try done.
      intros s1 e H. injection H as <- <-. split_and!; try done. by right.
  - split_and!; try done.
    intros s1 e H. injection H as <- <-. split_and!; try done. by left.
Qed.

Lemma C5_loadUserProgress_failure_witness :
  let user := Some {| nickname := "taro" |} in
  let st := storeWith "userProgress_taro" (sampleProgress 3 4 1) in
  let s' := fst (loadUserProgress (mapEnv rejectAll) sampleCategories user (emptyState st)) in
  progress s' = None /\ storage s' = st /\ loading s' = false /\
  errorState s' = [(Thrown (JStr "invalid progress"), "学習進捗の読み込みに失敗しました")].
Proof.
  intros user st.
  destruct (C5_loadUserProgress_failure (mapEnv rejectAll) sampleCategories user (emptyState st))
    as (_ & Hbody & _ & Hval & Hload & _).
  destruct (Hval (sampleProgress 3 4 1) (Thrown (JStr "invalid progress")) eq_refl eq_refl)
    as [Hp Hst].
  destruct (Hbody _ (Thrown (JStr "invalid progress")) eq_refl) as (He & _).
  simpl. split; [exact Hp|]. split; [exact Hst|]. split; [exact Hload|]. exact He.
Defined.

(** ** Accuracy *)

Section Accuracy.
Import Num NumFacts.
Local Open Scope Z_scope.

Lemma calculateAccuracy_zero_total (p : UserProgress) :
  is_zero (totalQuestionsAnswered p) = true ->
  calculateAccuracy (Some p) = of_Z 0.
Proof.
  intros Hz. unfold calculateAccuracy, calculateAccuracyT.
  by destruct (totalQuestionsAnswered p) as [[]| | |].
Qed.

Lemma calculateAccuracy_counts (p : UserProgress) (c t : Z) :
  correctAnswers p = of_Z c -> totalQuestionsAnswered p = of_Z t ->
  0 < t < 2 ^ 53 ->
  calculateAccuracy (Some p) = fst (roundedPercent (of_Z c) (of_Z t)).
Proof.
  intros Hc Ht Hpos. unfold calculateAccuracy, calculateAccuracyT.
  rewrite Hc, Ht, eqb_of_Z by lia.
  by destruct (Z.eqb_spec t 0); [lia|].
Qed.

(** C1, as amended: a null progress and a zero total give 0.  For integer
    counters with [0 <= correctAnswers <= 2^43] and a positive total below
    [2^53], the result is an integer [k] nearest to the exact percentage
    [100 * correct / total], that is, at distance at most one half from it.
    It is [Math.round] of the exact percentage unless that percentage lies
    exactly halfway between two integers; at such a tie the result is
    either the upper neighbour, as [Math.round] of the exact value, or the
    lower one. *)
Theorem C1_calculateAccuracy :
  calculateAccuracy None = of_Z 0 /\
  (forall p, is_zero (totalQuestionsAnswered p) = true ->
             calculateAccuracy (Some p) = of_Z 0) /\
  (forall p c t,
      correctAnswers p = of_Z c -> totalQuestionsAnswered p = of_Z t ->
      0 <= c <= 2 ^ 43 -> 0 < t < 2 ^ 53 ->
      exists k,
        calculateAccuracy (Some p) = of_Z k /\
        200 * c - t <= 2 * t * k <= 200 * c + t /\
        (k = exact_rounded_percent c t \/
         k = exact_rounded_percent c t - 1 /\ (200 * c + t) mod (2 * t) = 0)).
Proof.
  split; [reflexivity|]. split; [exact calculateAccuracy_zero_total|].
  intros p c t Hc Ht Hcb Htb.
  rewrite (calculateAccuracy_counts p c t) by done.
  destruct (roundedPercent_nearest c t Hcb Htb) as (k & Hk & Hk0 & Hlo & Hhi).
  exists k. split; [done|]. split; [done|].
  unfold exact_rounded_percent.
  pose proof (Z.div_mod (200 * c + t) (2 * t) ltac:(lia)) as Hdm.
  pose proof (Z.mod_pos_bound (200 * c + t) (2 * t) ltac:(lia)) as Hr.
  set (r := (200 * c + t) / (2 * t)) in *.
  set (rho := (200 * c + t) mod (2 * t)) in *.
  assert (Hkr : k <= r) by nia.
  assert (Hrk : r <= k + 1) by nia.
  destruct (Z.eq_dec k r) as [|Hne]; [by left|].
  right. split; [lia|]. nia.
Qed.

Lemma C1_calculateAccuracy_witness :
  exists k, calculateAccuracy (Some (sampleProgress 1 3 0)) = of_Z k /\
            200 * 1 - 3 <= 2 * 3 * k <= 200 * 1 + 3.
Proof.
  destruct C1_calculateAccuracy as (_ & _ & H).
  destruct (H (sampleProgress 1 3 0) 1 3 eq_refl eq_refl) as (k & Hk & Hb & _).
  - vm_compute. split; discriminate.
  - vm_compute. split; reflexivity.
  - exists k. split; [exact Hk | exact Hb].
Defined.

(** C1, as stated, fails: with 23 correct answers out of 40 the exact
    percentage is 57.5, whose [Math.round] is 58, while the page computes
    [23 / 40 * 100 = 57.49999999999999] in binary64 and shows 57. *)
Lemma C1_counterexample :
  let p := sampleProgress 23 40 0 in
  gtb (totalQuestionsAnswered p) (of_Z 0) = true /\
  exact_rounded_percent 23 40 = 58 /\
  calculateAccuracy (Some p) = of_Z 57 /\
  calculateAccuracy (Some p) <> of_Z (exact_rounded_percent 23 40).
Proof.
  vm_compute. split; [reflexivity|]. split; [reflexivity|].
  split; [reflexivity | discriminate].
Qed.

(** Both outcomes of a tie occur: 1 of 8 is 12.5 and shows 13, 23 of 40 is
    57.5 and shows 57; away from ties the result is the rounded ratio. *)
Example accuracy_1_of_8 : calculateAccuracy (Some (sampleProgress 1 8 0)) = of_Z 13.
Proof. reflexivity. Qed.

Example accuracy_2_of_3 : calculateAccuracy (Some (sampleProgress 2 3 0)) = of_Z 67.
Proof. reflexivity. Qed.

Example accuracy_none : calculateAccuracy None = of_Z 0.
Proof. reflexivity. Qed.

(** C10: for integer counters with [0 <= correctAnswers <=
    totalQuestionsAnswered] (counts below [2^53], which binary64 holds
    exactly) the accuracy is an integer between 0 and 100; the fresh
    progress has accuracy 0 and pass probability "低". *)
Theorem C10_accuracy_range :
  (forall p c t,
      correctAnswers p = of_Z c -> totalQuestionsAnswered p = of_Z t ->
      0 <= c <= t -> t < 2 ^ 53 ->
      exists k, calculateAccuracy (Some p) = of_Z k /\ 0 <= k <= 100) /\
  (forall categories,
      calculateAccuracy (Some (initialProgress categories)) = of_Z 0 /\
      calculatePassProbability (Some (initialProgress categories)) = "低").
Proof.
  split; [|by split]. intros p c t Hc Ht Hct Hlt.
  destruct (Z.eq_dec t 0) as [->|Hne].
  - exists 0. split; [|lia]. apply calculateAccuracy_zero_total. by rewrite Ht.
  - rewrite (calculateAccuracy_counts p c t) by (try done; lia).
    apply roundedPercent_range; lia.
Qed.

Lemma C10_accuracy_range_witness :
  exists k, calculateAccuracy (Some (sampleProgress 7 9 0)) = of_Z k /\ 0 <= k <= 100.
Proof.
  refine (proj1 C10_accuracy_range (sampleProgress 7 9 0) 7 9 eq_refl eq_refl _ _).
  - lia.
  - vm_compute. reflexivity.
Defined.

(** ** Pass probability *)


End Accuracy.

(** ** Guards of the divisions *)

Section Guards.
Import Num NumFacts.
Local Open Scope Z_scope.

Lemma eqb_zero_false (x : number) : eqb x (of_Z 0) = false -> is_zero x = false.
Proof. by destruct x as [[]| | |]. Qed.

Lemma gtb_zero_true (x : number) : gtb x (of_Z 0) = true -> is_zero x = false.
Proof. by destruct x as [[]| | |]. Qed.

Lemma gtb_zero_is_zero (x : number) : is_zero x = true -> gtb x (of_Z 0) = false.
Proof. by destruct x as [[]| | |]. Qed.

Lemma roundedPercent_trace (a b : number) : snd (roundedPercent a b) = [b].
Proof. reflexivity. Qed.

Lemma studyStatsT_trace (data : CategoryData.t) :
  snd (studyStatsT data)
  = (if gtb (CategoryData.totalQuestions data) (of_Z 0)
     then [CategoryData.totalQuestions data] else [])
    ++ (if gtb (CategoryData.answeredQuestions data) (of_Z 0)
        then [CategoryData.answeredQuestions data] else []).
Proof.
  unfold studyStatsT.
  destruct (gtb (CategoryData.totalQuestions data) (of_Z 0)),
    (gtb (CategoryData.answeredQuestions data) (of_Z 0)); reflexivity.
Qed.

Lemma mockStatsT_study (data : CategoryData.t) : mockStatsT data = studyStatsT data.
Proof. reflexivity. Qed.

(** C2: no percentage derivation of the page divides by zero.  The
    divisors recorded while [calculateAccuracy] and the per-category
    percentage and accuracy are computed are all non-zero, for every
    input; the accuracy is 0 when the total is 0, the category percentage
    is 0 when the category's [totalQuestions] is 0 and the category
    accuracy is 0 when its [answeredQuestions] is 0, in the study rows and
    in the mock cards alike. *)
Theorem C2_divisions_guarded :
  (forall progress, no_division_by_zero (calculateAccuracyT progress)) /\
  (forall p, is_zero (totalQuestionsAnswered p) = true ->
             calculateAccuracy (Some p) = of_Z 0) /\
  (forall data, no_division_by_zero (studyStatsT data) /\
                no_division_by_zero (mockStatsT data)) /\
  (forall data, is_zero (CategoryData.totalQuestions data) = true ->
                fst (fst (studyStatsT data)) = of_Z 0 /\
                fst (fst (mockStatsT data)) = of_Z 0) /\
  (forall data, is_zero (CategoryData.answeredQuestions data) = true ->
                snd (fst (studyStatsT data)) = of_Z 0 /\
                snd (fst (mockStatsT data)) = of_Z 0) /\
  (forall p category data,
      categoryProgress p !! Category.name category = Some data ->
      exists row card,
        renderStudyCategory p category = Ok row /\
        renderMockCategory p category = Ok card /\
        study_width row = fst (fst (studyStatsT data)) /\
        study_accuracy row = snd (fst (studyStatsT data)) /\
        mock_percentage card = fst (fst (mockStatsT data)) /\
        mock_accuracy card = snd (fst (mockStatsT data))).
Proof.
  split_and!.
  - intros [p|]; unfold no_division_by_zero, calculateAccuracyT; [|by constructor].
    destruct (eqb (totalQuestionsAnswered p) (of_Z 0)) eqn:Hz; [by constructor|].
    rewrite roundedPercent_trace. constructor; [|constructor]. by apply eqb_zero_false.
  - exact calculateAccuracy_zero_total.
  - intros data. change (mockStatsT data) with (studyStatsT data).
    unfold no_division_by_zero.
    rewrite studyStatsT_trace. split; apply Forall_app; split.
    all: match goal with
         | |- Forall _ (if ?b then _ else _) =>
             destruct b eqn:Hg; constructor; [by apply gtb_zero_true | constructor]
         end.
  - intros data Hz. change (mockStatsT data) with (studyStatsT data).
    unfold studyStatsT.
    rewrite (gtb_zero_is_zero _ Hz).
    by destruct (gtb (CategoryData.answeredQuestions data) (of_Z 0)).
  - intros data Hz. change (mockStatsT data) with (studyStatsT data).
    unfold studyStatsT.
    rewrite (gtb_zero_is_zero _ Hz).
    by destruct (gtb (CategoryData.totalQuestions data) (of_Z 0)).
  - intros p category data Hdata. unfold renderStudyCategory, renderMockCategory.
    rewrite Hdata. change (mockStatsT data) with (studyStatsT data).
    destruct (fst (studyStatsT data)) as [percentage accuracy].
    eexists _, _. by split_and!.
Qed.

Lemma C2_divisions_guarded_witness :
  calculateAccuracy (Some (sampleProgress 3 0 0)) = of_Z 0 /\
  fst (fst (studyStatsT (CategoryData.mk (of_Z 0) (of_Z 0) (of_Z 0)))) = of_Z 0 /\
  snd (fst (mockStatsT (CategoryData.mk (of_Z 10) (of_Z 0) (of_Z 0)))) = of_Z 0.
Proof.
  destruct C2_divisions_guarded as (_ & Hacc & _ & Hpct & Hca & _).
  split; [exact (Hacc (sampleProgress 3 0 0) eq_refl)|].
  split.
  - exact (proj1 (Hpct (CategoryData.mk (of_Z 0) (of_Z 0) (of_Z 0)) eq_refl)).
  - exact (proj2 (Hca (CategoryData.mk (of_Z 10) (of_Z 0) (of_Z 0)) eq_refl)).
Defined.
End Guards.

(** ** Streak *)

Section Streak.
Import Num NumFacts.
Local Open Scope Z_scope.

Lemma Number_toString_of_Z (shortest_repr : number -> string) (n : Z) :
  0 < n < 2 ^ 53 -> Number_toString shortest_repr (of_Z n) = pretty n.
Proof.
  intros Hn. pose proof (to_int_of_Z n ltac:(lia)) as Hint.
  pose proof (of_Z_pos n Hn) as Hfin.
  unfold Number_toString. rewrite Hfin at 1. rewrite Hint.
  destruct (Z.ltb_spec (Z.abs n) (10 ^ 21)) as [|Hge]; [done|].
  exfalso. change (2 ^ 53) with 9007199254740992 in Hn.
  change (10 ^ 21) with 1000000000000000000000 in Hge. lia.
Qed.

(** C6: the streak status has four cases.  A null progress and a streak
    of 0 give a gray prompt; a streak of 1 or 2 gives the orange message, 3
    to 6 the blue one, 7 or more the green one.  The colour identifies the
    case, so the cases exclude one another, and for a positive streak the
    message begins with the streak in decimal. *)
Theorem C6_getStreakStatus (shortest_repr : number -> string)
    (p : UserProgress) (n : Z) :
  currentStreak p = of_Z n -> 0 <= n < 2 ^ 53 ->
  let status := getStreakStatus shortest_repr (Some p) in
  getStreakStatus shortest_repr None
    = {| message := "学習を始めましょう！"; color := "text-gray-500" |} /\
  (n = 0 ->
   status = {| message := "今日から始めましょう！"; color := "text-gray-500" |}) /\
  (1 <= n <= 2 ->
   status = {| message := pretty n +:+ "日連続！"; color := "text-orange-500" |}) /\
  (3 <= n <= 6 ->
   status = {| message := pretty n +:+ "日連続！素晴らしい！";
               color := "text-blue-500" |}) /\
  (7 <= n ->
   status = {| message := pretty n +:+ "日連続！すごい！";
               color := "text-green-500" |}) /\
  (color status = "text-gray-500" <-> n = 0) /\
  (color status = "text-orange-500" <-> 1 <= n <= 2) /\
  (color status = "text-blue-500" <-> 3 <= n <= 6) /\
  (color status = "text-green-500" <-> 7 <= n).
Proof.
  intros Hs Hn status. split; [reflexivity|].
  assert (Hb : forall k, 0 <= k <= 7 -> - 2 ^ 53 < k < 2 ^ 53).
  { intros k Hk. change (2 ^ 53) with 9007199254740992. lia. }
  assert (Hn' : - 2 ^ 53 < n < 2 ^ 53) by lia.
  unfold status, getStreakStatus. rewrite Hs.
  rewrite eqb_of_Z, !ltb_of_Z by (try done; apply Hb; lia).
  destruct (Z.eqb_spec n 0) as [->|Hn0].
  { split_and!; try (intros; lia); try done;
      split; intros; solve [lia | done | discriminate]. }
  rewrite Number_toString_of_Z by lia.
  destruct (Z.ltb_spec n 3) as [H3|H3].
  { split_and!; try (intros; lia); try done;
      split; intros; solve [lia | done | discriminate]. }
  destruct (Z.ltb_spec n 7) as [H7|H7].
  { split_and!; try (intros; lia); try done;
      split; intros; solve [lia | done | discriminate]. }
  split_and!; try (intros; lia); try done;
    split; intros; solve [lia | done | discriminate].
Qed.

Lemma C6_getStreakStatus_witness :
  getStreakStatus (fun _ => "") (Some (sampleProgress 0 0 5))
  = {| message := "5日連続！素晴らしい！"; color := "text-blue-500" |}.
Proof.
  refine (proj1 (proj2 (proj2 (proj2 (C6_getStreakStatus (fun _ => "")
            (sampleProgress 0 0 5) 5 eq_refl _)))) _).
  - vm_compute. split; [discriminate | reflexivity].
  - lia.
Defined.
End Streak.

(** * Further properties of the component *)

(** ** Storage keys *)

Lemma String_append_inj_l (pre a b : string) : pre +:+ a = pre +:+ b -> a = b.
Proof.
  induction pre as [|c pre IH]; [done|].
  rewrite !String_append_cons. intros H. apply IH. congruence.
Qed.

(** The progress key and the history key of any two users differ, each
    key determines the nickname it was built from, and a missing user
    shares its keys with the nickname "undefined". *)
Theorem storage_keys_distinct :
  (forall u1 u2, userProgressKey u1 <> historyKey u2) /\
  (forall n1 n2,
      userProgressKey (Some {| nickname := n1 |})
      = userProgressKey (Some {| nickname := n2 |}) -> n1 = n2) /\
  (forall n1 n2,
      historyKey (Some {| nickname := n1 |})
      = historyKey (Some {| nickname := n2 |}) -> n1 = n2) /\
  userProgressKey None = userProgressKey (Some {| nickname := "undefined" |}) /\
  historyKey None = historyKey (Some {| nickname := "undefined" |}).
Proof.
  split_and!; try reflexivity.
  - intros u1 u2. unfold userProgressKey, historyKey.
    rewrite !String_append_cons. congruence.
  - intros n1 n2. apply String_append_inj_l.
  - intros n1 n2. apply String_append_inj_l.
Qed.

Lemma storage_keys_distinct_witness :
  userProgressKey (Some {| nickname := "taro" |})
  <> historyKey (Some {| nickname := "taro" |}).
Proof.
  exact (proj1 storage_keys_distinct (Some {| nickname := "taro" |})
           (Some {| nickname := "taro" |})).
Defined.

(** ** What the loaders leave alone *)

(** Loading the history never throws and never shows an error: the
    progress, the loading flag, the storage, the error state and the 3D
    switch are as before; either the history is replaced, by at most five
    entries, or the read threw and exactly one line went to the console. *)
Theorem loadMockExamHistory_contained {Store ErrState : Type}
    (env : Env Store ErrState) (user : option User) (s : State Store ErrState) :
  let s' := fst (loadMockExamHistory env user s) in
  snd (loadMockExamHistory env user s) = Ok tt /\
  progress s' = progress s /\ loading s' = loading s /\
  storage s' = storage s /\ errorState s' = errorState s /\
  show3D s' = show3D s /\
  (console s' = console s /\ length (mockExamHistory s') <= 5 \/
   mockExamHistory s' = mockExamHistory s /\
   exists e, console s' = console s ++ [("Failed to load mock exam history:", e)]).
Proof.
  unfold loadMockExamHistory, try_catch, bind, lift.
  destruct (getItem_history env (historyKey user) (storage s)) as [stored|e]; simpl.
  - split_and!; try done. left. split; [done|].
    rewrite (Array_slice_last 5) by lia. rewrite length_reverse, length_drop. lia.
  - split_and!; try done. right. split; [done|]. by exists e.
Qed.

(** Loading the progress never throws and never touches the history, the
    console or the 3D switch; it writes to storage only when the read gave
    null, so a stored progress is never overwritten, not even by its
    validated form. *)
Theorem loadUserProgress_frame {Store ErrState : Type}
    (env : Env Store ErrState) (categories : list Category.t)
    (user : option User) (s : State Store ErrState) :
  let s' := fst (loadUserProgress env categories user s) in
  mockExamHistory s' = mockExamHistory s /\
  console s' = console s /\ show3D s' = show3D s /\
  (getItem_progress env (userProgressKey user) (storage s) <> Ok None ->
   storage s' = storage s) /\
  (storage s' = storage s \/
   setItem env (userProgressKey user) (initialProgress categories) (storage s)
   = Ok (storage s')).
Proof.
  unfold_loader.
  destruct (getItem_progress env (userProgressKey user) (storage s))
    as [[parsed|]|e0]; simpl.
  - destruct (validateAndFixProgress env parsed); simpl; split_and!; try done; by left.
  - destruct (setItem env (userProgressKey user) (initialProgress categories)
                (storage s)) as [st|e1] eqn:Hset; simpl; split_and!; try done.
    + by right.
    + by left.
  - split_and!; try done. by left.
Qed.

Lemma loadUserProgress_frame_witness :
  storage (fst (loadUserProgress (mapEnv Ok) sampleCategories
                  (Some {| nickname := "taro" |})
                  (emptyState (storeWith "userProgress_taro" (sampleProgress 3 4 1)))))
  = storeWith "userProgress_taro" (sampleProgress 3 4 1).
Proof.
  refine (proj1 (proj2 (proj2 (proj2 (loadUserProgress_frame (mapEnv Ok) sampleCategories
            (Some {| nickname := "taro" |})
            (emptyState (storeWith "userProgress_taro" (sampleProgress 3 4 1))))))) _).
  discriminate.
Defined.

(** ** Mount effect, screen and retry *)




(** On a storage where a value written under a key is what the next read
    of that key returns, the fresh progress is written once: a second run
    of the loader finds it, displays its validated form and leaves the
    storage as the first run left it. *)
Theorem loadUserProgress_initialises_once {Store ErrState : Type}
    (env : Env Store ErrState) (categories : list Category.t)
    (user : option User) (s : State Store ErrState)
    (st' : Store) (validated : UserProgress) :
  getItem_progress env (userProgressKey user) (storage s) = Ok None ->
  setItem env (userProgressKey user) (initialProgress categories) (storage s) = Ok st' ->
  getItem_progress env (userProgressKey user) st' = Ok (Some (initialProgress categories)) ->
  validateAndFixProgress env (initialProgress categories) = Ok validated ->
  let s1 := fst (loadUserProgress env categories user s) in
  let s2 := fst (loadUserProgress env categories user s1) in
  storage s1 = st' /\ storage s2 = st' /\
  progress s1 = Some (initialProgress categories) /\
  progress s2 = Some validated /\ loading s2 = false.
Proof.
  intros Hget Hset Hraw Hval.
  assert (H1 : fst (loadUserProgress env categories user s)
               = {| progress := Some (initialProgress categories); loading := false;
                    show3D := show3D s; mockExamHistory := mockExamHistory s;
                    errorState := errorState s; storage := st';
                    console := console s |}).
  { unfold_loader. rewrite Hget. simpl. by rewrite Hset. }
  simpl. rewrite H1. unfold_loader. rewrite Hraw. simpl. by rewrite Hval.
Qed.

Lemma loadUserProgress_initialises_once_witness :
  let user := Some {| nickname := "taro" |} in
  let s1 := fst (loadUserProgress (mapEnv Ok) sampleCategories user
                   (emptyState {| progress_items := ∅; history_items := ∅ |})) in
  storage (fst (loadUserProgress (mapEnv Ok) sampleCategories user s1))
  = {| progress_items := {[ "userProgress_taro" := initialProgress sampleCategories ]};
       history_items := ∅ |}.
Proof.
  intros user.
  pose proof (loadUserProgress_initialises_once (mapEnv Ok) sampleCategories user
                (emptyState {| progress_items := ∅; history_items := ∅ |})
                {| progress_items :=
                     {[ "userProgress_taro" := initialProgress sampleCategories ]};
                   history_items := ∅ |}
                (initialProgress sampleCategories)
                eq_refl eq_refl) as H.
  exact (proj1 (proj2 (H eq_refl eq_refl))).
Defined.

(** When nothing was loaded before and the read or the validator throws,
    the render body takes its second return: the page shows the spinner
    captioned "Loading...", not the dashboard, although the error was
    reported; the error alert and its retry button belong to the
    dashboard.  A run that displays a progress reaches the dashboard. *)
Theorem failed_first_load_screen {Store ErrState : Type}
    (env : Env Store ErrState) (categories : list Category.t)
    (user : option User) (s : State Store ErrState) :
  progress s = None ->
  let key := userProgressKey user in
  let s' := fst (loadUserProgress env categories user s) in
  (forall e, getItem_progress env key (storage s) = Throw e ->
             screen s' = FallbackSpinner /\
             screenCaption (screen s') = Some "Loading..." /\
             errorState s'
             = handleError env e "学習進捗の読み込みに失敗しました" (errorState s)) /\
  (forall parsed e,
      getItem_progress env key (storage s) = Ok (Some parsed) ->
      validateAndFixProgress env parsed = Throw e ->
      screen s' = FallbackSpinner /\
      screenCaption (screen s') = Some "Loading..." /\
      errorState s'
      = handleError env e "学習進捗の読み込みに失敗しました" (errorState s)) /\
  (forall parsed validated,
      getItem_progress env key (storage s) = Ok (Some parsed) ->
      validateAndFixProgress env parsed = Ok validated ->
      screen s' = DashboardScreen validated) /\
  (getItem_progress env key (storage s) = Ok None ->
   screen s' = DashboardScreen (initialProgress categories)).
Proof.
  intros Hnone key s'. subst s'. unfold screen. unfold_loader. fold key.
  split_and!.
  - intros e He. rewrite He. simpl. by rewrite Hnone.
  - intros parsed e Hp Hv. rewrite Hp. simpl. rewrite Hv. simpl. by rewrite Hnone.
  - intros parsed v Hp Hv. rewrite Hp. simpl. by rewrite Hv.
  - intros Hp. rewrite Hp. simpl.
    by destruct (setItem env key (initialProgress categories) (storage s)).
Qed.

Lemma failed_first_load_screen_witness :
  screen (fst (loadUserProgress (mapEnv rejectAll) sampleCategories
                 (Some {| nickname := "taro" |})
                 (emptyState (storeWith "userProgress_taro" (sampleProgress 3 4 1)))))
  = FallbackSpinner.
Proof.
  exact (proj1 (proj1 (proj2 (failed_first_load_screen (mapEnv rejectAll) sampleCategories
           (Some {| nickname := "taro" |})
           (emptyState (storeWith "userProgress_taro" (sampleProgress 3 4 1)))
           eq_refl)) (sampleProgress 3 4 1) (Thrown (JStr "invalid progress"))
           eq_refl eq_refl)).
Defined.


(** ** The category lists *)



Lemma category_in_some_list (categories : list Category.t) (c : Category.t) :
  c ∈ categories <-> c ∈ studyCategories categories \/ c ∈ mockCategories categories.
Proof.
  unfold studyCategories, mockCategories. rewrite !list_elem_of_filter.
  destruct (isMock c); simpl; intuition congruence.
Qed.



Lemma fresh_stats (total : number) :
  fst (studyStatsT (CategoryData.mk total (Num.of_Z 0) (Num.of_Z 0)))
  = (Num.of_Z 0, Num.of_Z 0).
Proof. by destruct total as [[]|[]| |[] m e]. Qed.

(** The fresh progress always renders: whatever the table holds, both
    lists come out without a throw, every study row shows 0 answered, a bar
    of width 0 and accuracy 0, and every mock card shows 0 and 0 in the
    orange class. *)
Theorem fresh_progress_renders (categories : list Category.t) :
  exists rows cards,
    studySection categories (initialProgress categories) = Ok rows /\
    mockSection categories (initialProgress categories) = Ok cards /\
    length rows + length cards = length categories /\
    Forall (fun row => study_width row = Num.of_Z 0 /\
                       study_accuracy row = Num.of_Z 0 /\
                       study_answered row = Num.of_Z 0) rows /\
    Forall (fun card => mock_percentage card = Num.of_Z 0 /\
                        mock_accuracy card = Num.of_Z 0 /\
                        mock_accuracy_class card = "text-orange-500") cards.
Proof.
  assert (Hs : forall c, c ∈ categories ->
            exists row, renderStudyCategory (initialProgress categories) c = Ok row /\
                        study_width row = Num.of_Z 0 /\
                        study_accuracy row = Num.of_Z 0 /\
                        study_answered row = Num.of_Z 0).
  { intros c Hc. destruct (assignAll_present ∅ categories c Hc) as (c' & _ & _ & H).
    unfold renderStudyCategory. simpl categoryProgress.
    unfold initialCategoryProgress. rewrite H. unfold freshEntry.
    rewrite fresh_stats. by eexists. }
  assert (Hm : forall c, c ∈ categories ->
            exists card, renderMockCategory (initialProgress categories) c = Ok card /\
                         mock_percentage card = Num.of_Z 0 /\
                         mock_accuracy card = Num.of_Z 0 /\
                         mock_accuracy_class card = "text-orange-500").
  { intros c Hc. destruct (assignAll_present ∅ categories c Hc) as (c' & _ & _ & H).
    unfold renderMockCategory. simpl categoryProgress.
    unfold initialCategoryProgress. rewrite H. unfold freshEntry.
    change (mockStatsT ?d) with (studyStatsT d).
    rewrite fresh_stats. by eexists. }
  assert (Hall : forall {B} (f : Category.t -> result B) (P : B -> Prop)
                        (l : list Category.t),
            (forall c, c ∈ l -> exists y, f c = Ok y /\ P y) ->
            exists ys, Array_map_result f l = Ok ys /\ Forall P ys /\
                       length ys = length l).
  { intros B f P l. induction l as [|c l IH]; intros H; simpl.
    - exists []. by split_and!.
    - destruct (H c ltac:(left)) as (y & -> & Hy).
      destruct IH as (ys & -> & Hys & Hlen); [intros c' Hc'; apply H; by right|].
      exists (y :: ys). split_and!; [done | by constructor | simpl; congruence]. }
  destruct (Hall _ _ _ (studyCategories categories)
              (fun c Hc => Hs c (proj2 (category_in_some_list categories c) (or_introl Hc))))
    as (rows & Hr & Hrows & Hlr).
  destruct (Hall _ _ _ (mockCategories categories)
              (fun c Hc => Hm c (proj2 (category_in_some_list categories c) (or_intror Hc))))
    as (cards & Hc & Hcards & Hlc).
  exists rows, cards. split_and!; try done.
  rewrite Hlr, Hlc. unfold studyCategories, mockCategories.
  clear. induction categories as [|c l IH]; [done|].
  rewrite !filter_cons. destruct (isMock c); simpl; rewrite ?decide_True, ?decide_False by done;
    simpl; lia.
Qed.

(** ** Percentages of a category *)

Section Percentages.
Import Num NumFacts.
Local Open Scope Z_scope.

Lemma guarded_percent_range (a b : Z) :
  0 <= a <= b -> b < 2 ^ 53 ->
  exists k,
    fst (if gtb (of_Z b) (of_Z 0) then roundedPercent (of_Z a) (of_Z b)
         else tret (of_Z 0)) = of_Z k /\ 0 <= k <= 100.
Proof.
  intros Ha Hb. rewrite gtb_of_Z by (try lia; vm_compute; split; reflexivity).
  destruct (Z.ltb_spec 0 b) as [Hpos|Hz].
  - apply roundedPercent_range; lia.
  - exists 0. split; [reflexivity | lia].
Qed.

(** For an entry with integer counters, [0 <= correctAnswers <=
    answeredQuestions <= totalQuestions < 2^53], the progress percentage
    and the accuracy are integers between 0 and 100, in the study row and
    in the mock card: the bar is never wider than 100%.  The mock accuracy
    is shown green exactly from 70 on. *)
Theorem category_percentages_range (p : UserProgress) (category : Category.t)
    (total answered correct : Z) :
  categoryProgress p !! Category.name category
  = Some (CategoryData.mk (of_Z total) (of_Z answered) (of_Z correct)) ->
  0 <= correct <= answered -> answered <= total -> total < 2 ^ 53 ->
  exists percentage accuracy row card,
    0 <= percentage <= 100 /\ 0 <= accuracy <= 100 /\
    renderStudyCategory p category = Ok row /\
    study_width row = of_Z percentage /\ study_accuracy row = of_Z accuracy /\
    renderMockCategory p category = Ok card /\
    mock_percentage card = of_Z percentage /\ mock_accuracy card = of_Z accuracy /\
    (mock_accuracy_class card = "text-green-500" <-> 70 <= accuracy).
Proof.
  intros Hdata Hc Ha Ht.
  destruct (guarded_percent_range answered total ltac:(lia) Ht) as (k1 & Hk1 & Hb1).
  destruct (guarded_percent_range correct answered Hc ltac:(lia)) as (k2 & Hk2 & Hb2).
  assert (Hstats : fst (studyStatsT (CategoryData.mk (of_Z total) (of_Z answered)
                                       (of_Z correct)))
                   = (of_Z k1, of_Z k2)).
  { unfold studyStatsT. cbn [CategoryData.totalQuestions CategoryData.answeredQuestions
                             CategoryData.correctAnswers].
    rewrite <- Hk1, <- Hk2.
    destruct (gtb (of_Z total) (of_Z 0)), (gtb (of_Z answered) (of_Z 0)); reflexivity. }
  unfold renderStudyCategory, renderMockCategory. rewrite Hdata.
  change (mockStatsT ?d) with (studyStatsT d). rewrite Hstats.
  eexists k1, k2, _, _. split_and!; try done; try lia.
  cbn [mock_accuracy_class].
  rewrite geb_of_Z by (change (2 ^ 53) with 9007199254740992; lia).
  destruct (Z.leb_spec 70 k2); split; (done || lia).
Qed.

Lemma category_percentages_range_witness :
  exists percentage accuracy : Z,
    0 <= percentage <= 100 /\ 0 <= accuracy <= 100 /\
    fst (studyStatsT (CategoryData.mk (of_Z 75) (of_Z 30) (of_Z 21)))
    = (of_Z percentage, of_Z accuracy).
Proof.
  pose (p := {| totalQuestionsAnswered := of_Z 30; correctAnswers := of_Z 21;
                categoryProgress :=
                  {[ "Regulatory Mock 1" :=
                       CategoryData.mk (of_Z 75) (of_Z 30) (of_Z 21) ]};
                studySessions := []; incorrectQuestions := None;
                overcomeQuestions := None; currentStreak := of_Z 0;
                lastStudyDate := "";
                preferences := {| showJapaneseInStudy := true;
                                  showJapaneseInMock := false;
                                  autoReviewIncorrect := true;
                                  notificationEnabled := false |} |}).
  destruct (category_percentages_range p
              (Category.mk "Regulatory Mock 1" None (of_Z 75)) 75 30 21)
    as (k1 & k2 & row & card & H1 & H2 & Hrow & Hw & Hacc & _).
  - reflexivity.
  - lia.
  - lia.
  - vm_compute. reflexivity.
  - exists k1, k2. split; [exact H1|]. split; [exact H2|].
    unfold renderStudyCategory in Hrow.
    change (categoryProgress p !! Category.name
              (Category.mk "Regulatory Mock 1" None (of_Z 75)))
      with (Some (CategoryData.mk (of_Z 75) (of_Z 30) (of_Z 21))) in Hrow.
    cbv beta iota in Hrow.
    destruct (fst (studyStatsT (CategoryData.mk (of_Z 75) (of_Z 30) (of_Z 21))))
      as [w a].
    injection Hrow as <-. simpl in Hw, Hacc. by rewrite Hw, Hacc.
Defined.

(** ** Accuracy as a function of the counters *)

Lemma accuracy_nearest (p : UserProgress) (c t : Z) :
  correctAnswers p = of_Z c -> totalQuestionsAnswered p = of_Z t ->
  0 <= c <= 2 ^ 43 -> 0 < t < 2 ^ 53 ->
  exists k, calculateAccuracy (Some p) = of_Z k /\ 0 <= k < 2 ^ 53 /\
            200 * c - t <= 2 * t * k <= 200 * c + t.
Proof.
  intros Hc Ht Hcb Htb. rewrite (calculateAccuracy_counts p c t) by done.
  destruct (roundedPercent_nearest c t Hcb Htb) as (k & Hk & Hk0 & Hb).
  exists k. split; [done|]. split; [|done].
  change (2 ^ 43) with 8796093022208 in Hcb.
  change (2 ^ 53) with 9007199254740992 in *. nia.
Qed.

(** The pass probability in terms of the counters themselves, for integer
    counters with [0 <= correctAnswers <= 2^43] and a positive total: more
    than 69.5% correct gives "高", between 59.5% and 69.5% gives "中", less
    than 59.5% gives "低".  Exactly at 59.5% and 69.5% either neighbour may
    show. *)
Theorem passProbability_by_ratio (p : UserProgress) (c t : Z) :
  correctAnswers p = of_Z c -> totalQuestionsAnswered p = of_Z t ->
  0 <= c <= 2 ^ 43 -> 0 < t < 2 ^ 53 ->
  (139 * t < 200 * c -> calculatePassProbability (Some p) = "高") /\
  (119 * t < 200 * c < 139 * t -> calculatePassProbability (Some p) = "中") /\
  (200 * c < 119 * t -> calculatePassProbability (Some p) = "低") /\
  (200 * c = 139 * t -> calculatePassProbability (Some p) = "高" \/
                        calculatePassProbability (Some p) = "中") /\
  (200 * c = 119 * t -> calculatePassProbability (Some p) = "中" \/
                        calculatePassProbability (Some p) = "低").
Proof.
  intros Hc Ht Hcb Htb.
  destruct (accuracy_nearest p c t Hc Ht Hcb Htb) as (k & Hk & Hkb & Hlo & Hhi).
  assert (Hmul : forall a b, a * t < 2 * t * b -> a < 2 * b) by (intros; nia).
  assert (Hmul' : forall a b, 2 * t * b < a * t -> 2 * b < a) by (intros; nia).
  assert (Hmule : forall a b, a * t <= 2 * t * b -> a <= 2 * b) by (intros; nia).
  assert (Hmule' : forall a b, 2 * t * b <= a * t -> 2 * b <= a) by (intros; nia).
  assert (H70 : 139 * t < 200 * c -> 70 <= k).
  { intros H. assert (138 < 2 * k) by (apply Hmul; lia). lia. }
  assert (H70' : 200 * c < 139 * t -> k < 70).
  { intros H. assert (2 * k < 140) by (apply Hmul'; lia). lia. }
  assert (H60 : 119 * t < 200 * c -> 60 <= k).
  { intros H. assert (118 < 2 * k) by (apply Hmul; lia). lia. }
  assert (H60' : 200 * c < 119 * t -> k < 60).
  { intros H. assert (2 * k < 120) by (apply Hmul'; lia). lia. }
  assert (T70 : 200 * c = 139 * t -> 69 <= k <= 70).
  { intros H. assert (138 <= 2 * k) by (apply Hmule; lia).
    assert (2 * k <= 140) by (apply Hmule'; lia). lia. }
  assert (T60 : 200 * c = 119 * t -> 59 <= k <= 60).
  { intros H. assert (118 <= 2 * k) by (apply Hmule; lia).
    assert (2 * k <= 120) by (apply Hmule'; lia). lia. }
  clear Hmul Hmul' Hmule Hmule' Hlo Hhi.
  unfold calculatePassProbability. cbv zeta. rewrite Hk.
  change (2 ^ 53) with 9007199254740992 in Hkb.
  rewrite !geb_of_Z by (change (2 ^ 53) with 9007199254740992; lia).
  destruct (Z.leb_spec 70 k), (Z.leb_spec 60 k); split_and!; intros;
    first [reflexivity | lia | (left; reflexivity) | (right; reflexivity)].
Qed.

Lemma passProbability_by_ratio_witness :
  calculatePassProbability (Some (sampleProgress 7 10 0)) = "高".
Proof.
  refine (proj1 (passProbability_by_ratio (sampleProgress 7 10 0) 7 10
                   eq_refl eq_refl _ _) _).
  - vm_compute. split; discriminate.
  - vm_compute. split; reflexivity.
  - lia.
Defined.

(** With the total fixed, one more correct answer never lowers the
    accuracy shown; no correct answer shows 0 and all answers correct shows
    100 (integer counters, at most [2^43] correct answers). *)
Theorem accuracy_monotone (p1 p2 : UserProgress) (c1 c2 t : Z) :
  correctAnswers p1 = of_Z c1 -> correctAnswers p2 = of_Z c2 ->
  totalQuestionsAnswered p1 = of_Z t -> totalQuestionsAnswered p2 = of_Z t ->
  0 <= c1 <= c2 -> c2 <= 2 ^ 43 -> 0 < t < 2 ^ 53 ->
  exists k1 k2,
    calculateAccuracy (Some p1) = of_Z k1 /\ calculateAccuracy (Some p2) = of_Z k2 /\
    0 <= k1 <= k2 /\
    (c1 = 0 -> k1 = 0) /\ (c2 = t -> k2 = 100).
Proof.
  intros Hc1 Hc2 Ht1 Ht2 Hc Hc43 Ht.
  destruct (accuracy_nearest p1 c1 t Hc1 Ht1 ltac:(lia) Ht) as (k1 & Hk1 & Hb1 & Hn1).
  destruct (Z.eq_dec c1 c2) as [<-|Hne].
  - exists k1, k1. split; [done|]. split.
    + rewrite <- Hk1, (calculateAccuracy_counts p2 c1 t), (calculateAccuracy_counts p1 c1 t);
        done.
    + split; [lia|]. split; intros; nia.
  - destruct (accuracy_nearest p2 c2 t Hc2 Ht2 ltac:(lia) Ht) as (k2 & Hk2 & Hb2 & Hn2).
    exists k1, k2. split; [done|]. split; [done|].
    split; [split; [lia | nia]|]. split; intros; nia.
Qed.

Lemma accuracy_monotone_witness :
  exists k1 k2,
    calculateAccuracy (Some (sampleProgress 22 40 0)) = of_Z k1 /\
    calculateAccuracy (Some (sampleProgress 23 40 0)) = of_Z k2 /\ 0 <= k1 <= k2.
Proof.
  destruct (accuracy_monotone (sampleProgress 22 40 0) (sampleProgress 23 40 0) 22 23 40
              eq_refl eq_refl eq_refl eq_refl) as (k1 & k2 & H1 & H2 & H3 & _).
  - lia.
  - vm_compute. discriminate.
  - vm_compute. split; reflexivity.
  - exists k1, k2. split; [exact H1|]. split; [exact H2 | exact H3].
Defined.
End Percentages.

(** ** The section of recent results *)


